(** * Sliding-window patch extraction (src/utils/preprocessing.py)

    A shallow embedding of [_sliding_window_snapshots] together with the
    value-level behaviour of the numpy and torch primitives it calls, and the
    properties of the extractor stated over that embedding. *)

From Stdlib Require Import String ZArith List Lia Bool.
Import ListNotations.
Local Open Scope string_scope.
Local Open Scope list_scope.
Local Open Scope Z_scope.

(** ** Exceptions *)

(** The Python exceptions that can leave the function.  [AxisError] is
    numpy's exception for an axis outside the rank; it derives from both
    [ValueError] and [IndexError]. *)
Inductive PyError : Type :=
| AssertionError (msg : string)
| ValueError (msg : string)
| AxisError (axis ndim : Z)
| IndexError (msg : string)
| RuntimeError (msg : string).

Definition is_AssertionError (e : PyError) : bool :=
  match e with AssertionError _ => true | _ => false end.

(** [isinstance(e, ValueError)]. *)
Definition is_ValueError (e : PyError) : bool :=
  match e with ValueError _ | AxisError _ _ => true | _ => false end.

Definition is_RuntimeError (e : PyError) : bool :=
  match e with RuntimeError _ => true | _ => false end.

(** ** Computations that may raise and that record what they do to arrays *)

(** One entry per operation performed on a numpy array object. *)
Inductive access : Type :=
| Shape               (* reading [.shape] *)
| GetItem             (* [x[...]] *)
| SlidingWindowView   (* passing the array to [sliding_window_view] *)
| Copy                (* [.copy()] *)
| FromNumpy.          (* [torch.from_numpy] *)

Definition M (X : Type) : Type := (list access * (PyError + X))%type.

Definition ret {X} (x : X) : M X := ([], inr x).
Definition raise {X} (e : PyError) : M X := ([], inl e).
Definition touch (a : access) : M unit := ([a], inr tt).

Definition bind {X Y} (m : M X) (k : X -> M Y) : M Y :=
  match m with
  | (l, inl e) => (l, inl e)
  | (l, inr x) => let '(l', r) := k x in (l ++ l', r)
  end.

Notation "x <- m ;; k" := (bind m (fun x => k))
  (at level 61, m at next level, right associativity).
Notation "' pat <- m ;; k" := (bind m (fun x => match x with pat => k end))
  (at level 61, pat pattern, m at next level, right associativity).
Notation "m ;;; k" := (bind m (fun _ => k))
  (at level 61, right associativity).

Definition trace {X} (m : M X) : list access := fst m.
Definition result {X} (m : M X) : PyError + X := snd m.

(** ** Arrays *)

(** An array value: its shape and its elements in row-major (C) order.
    Torch tensors are read the same way. *)
Record ndarray (A : Type) : Type := mk_ndarray {
  shape : list Z;
  elems : list A
}.
Arguments mk_ndarray {A} _ _.
Arguments shape {A} _.
Arguments elems {A} _.

Definition Tensor := ndarray.

(** Element types come with a filler value, used only where a list is read
    outside its length. *)
Class Dtype (A : Type) : Type := { zero : A }.

#[export] Instance Dtype_Z : Dtype Z := {| zero := 0 |}.

Definition len {X} (l : list X) : Z := Z.of_nat (length l).

Definition prod (s : list Z) : Z := fold_right Z.mul 1 s.

Definition zrange (n : Z) : list Z := map Z.of_nat (seq 0 (Z.to_nat n)).

(** Flat row-major position of a multi-index. *)
Fixpoint ravel (s idx : list Z) : Z :=
  match s, idx with
  | _ :: s', i :: idx' => i * prod s' + ravel s' idx'
  | _, _ => 0
  end.

(** Multi-index of a flat row-major position. *)
Fixpoint unravel (s : list Z) (k : Z) : list Z :=
  match s with
  | [] => []
  | _ :: s' => k / prod s' :: unravel s' (k mod prod s')
  end.

Definition in_bounds (s idx : list Z) : Prop :=
  Forall2 (fun d i => 0 <= i < d) s idx.

Definition nonneg (s : list Z) : Prop := Forall (fun d => 0 <= d) s.

Definition wf {A} (x : ndarray A) : Prop :=
  nonneg (shape x) /\ len (elems x) = prod (shape x).

Section Arrays.
Context {A : Type} {dtype : Dtype A}.

(** [x[i0, i1, ...]] for a full, in-range index. *)
Definition item (x : ndarray A) (idx : list Z) : A :=
  nth (Z.to_nat (ravel (shape x) idx)) (elems x) zero.

(** The array of shape [s] whose entry at [idx] is [x] at [f idx]: the
    value of any strided view of [x]. *)
Definition gather (s : list Z) (f : list Z -> list Z) (x : ndarray A)
  : ndarray A :=
  mk_ndarray s (map (fun k => item x (f (unravel s k))) (zrange (prod s))).

Definition get_shape (x : ndarray A) : M (list Z) :=
  touch Shape ;;; ret (shape x).

(** [x[None, ...]]: a new leading axis of extent 1. *)
Definition getitem_newaxis (x : ndarray A) : M (ndarray A) :=
  touch GetItem ;;; ret (mk_ndarray (1 :: shape x) (elems x)).

(** [x[None, None, ...]]. *)
Definition getitem_newaxis2 (x : ndarray A) : M (ndarray A) :=
  touch GetItem ;;; ret (mk_ndarray (1 :: 1 :: shape x) (elems x)).

(** [numpy.lib.stride_tricks.sliding_window_view(x, window_shape=(h, w),
    axis=(-2, -1))]: the two windowed axes shrink by the window extent
    minus one and the window axes are appended. *)
Definition window_index (k : nat) (idx : list Z) : list Z :=
  firstn k idx ++
  match skipn k idx with
  | [i; j; u; v] => [i + u; j + v]
  | _ => []
  end.

Definition sliding_window_view (x : ndarray A) (window_shape : Z * Z)
  : M (ndarray A) :=
  let '(h, w) := window_shape in
  touch SlidingWindowView ;;;
  if (h <? 0) || (w <? 0) then
    raise (ValueError "`window_shape` cannot contain negative values")
  else if len (shape x) <? 2 then
    raise (AxisError (-2) (len (shape x)))
  else
    let k := (length (shape x) - 2)%nat in
    let Hx := nth k (shape x) 0 in
    let Wx := nth (S k) (shape x) 0 in
    if (Hx <? h) || (Wx <? w) then
      raise (ValueError "window shape cannot be larger than input array shape")
    else
      ret (gather (firstn k (shape x) ++ [Hx - (h - 1); Wx - (w - 1); h; w])
                  (window_index k) x).

(** Extent of [range(n)[::step]] and the position its [k]-th entry
    selects, for a nonzero [step]. *)
Definition slice_len (n step : Z) : Z :=
  if n <=? 0 then 0 else (n - 1) / Z.abs step + 1.

Definition slice_at (n step k : Z) : Z :=
  if 0 <? step then k * step else (n - 1) + k * step.

(** [x[:, :, ::step, ::step, :, :]]. *)
Definition getitem_stride (x : ndarray A) (step : Z) : M (ndarray A) :=
  touch GetItem ;;;
  match shape x with
  | d0 :: d1 :: d2 :: d3 :: d4 :: d5 :: rest =>
      if step =? 0 then raise (ValueError "slice step cannot be zero")
      else
        ret (gather
               (d0 :: d1 :: slice_len d2 step :: slice_len d3 step
                   :: d4 :: d5 :: rest)
               (fun idx =>
                  match idx with
                  | a :: b :: i :: j :: tl =>
                      a :: b :: slice_at d2 step i :: slice_at d3 step j :: tl
                  | _ => idx
                  end)
               x)
  | _ => raise (IndexError "too many indices for array")
  end.

(** [x.copy()]: same value in fresh contiguous storage. *)
Definition copy (x : ndarray A) : M (ndarray A) :=
  touch Copy ;;; ret x.

(** [torch.from_numpy(x)]. *)
Definition from_numpy (x : ndarray A) : M (Tensor A) :=
  touch FromNumpy ;;; ret x.

(** [t.permute] along the axis order [dims]. *)
Fixpoint index_of (d : nat) (dims : list nat) : nat :=
  match dims with
  | [] => 0
  | x :: r => if Nat.eqb x d then 0%nat else S (index_of d r)
  end.

Definition permute (t : Tensor A) (dims : list nat) : M (Tensor A) :=
  if Nat.eqb (length dims) (length (shape t)) then
    ret (gather (map (fun d => nth d (shape t) 0) dims)
                (fun idx =>
                   map (fun d => nth (index_of d dims) idx 0)
                       (seq 0 (length dims)))
                t)
  else
    raise (RuntimeError
      "permute: number of dimensions in the tensor input does not match the length of the desired ordering of dimensions").

(** [t.reshape] to the shape [-1 :: rest]: the leading extent is inferred. *)
Definition reshape_infer (t : Tensor A) (rest : list Z) : M (Tensor A) :=
  let numel := prod (shape t) in
  let newsize := prod rest in
  match find (fun d => d <? 0) rest with
  | Some d =>
      raise (RuntimeError
               (if d =? -1 then "only one dimension can be inferred"
                else "invalid shape dimension"))
  | None =>
      if (numel =? newsize) || ((0 <? newsize) && (numel mod newsize =? 0))
      then
        if newsize =? 0 then
          raise (RuntimeError
            "cannot reshape tensor of 0 elements: the unspecified dimension size -1 can be any value and is ambiguous")
        else ret (mk_ndarray (numel / newsize :: rest) (elems t))
      else raise (RuntimeError "shape is invalid for input size")
  end.

(** [t.squeeze()]: every axis of extent 1 is dropped. *)
Definition squeeze (t : Tensor A) : Tensor A :=
  mk_ndarray (filter (fun d => negb (d =? 1)) (shape t)) (elems t).

(** ** The extractor *)

(** Lines 57-64: bring [arr] to (N, C, H, W) and choose [C]. *)
Definition standardize (arr : ndarray A) : M (ndarray A * Z) :=
  s <- get_shape arr ;;
  if len s =? 3 then
    arr <- getitem_newaxis arr ;;
    s' <- get_shape arr ;;
    ret (arr, nth 1 s' 0)
  else
    s <- get_shape arr ;;
    if len s =? 2 then
      arr <- getitem_newaxis2 arr ;;
      ret (arr, 1)
    else
      ret (arr, 3).

(** Lines 66-69: window, subsample, copy, regroup. *)
Definition extract (arr : ndarray A) (C : Z) (kernel : Z * Z) (stride : Z)
  : M (Tensor A) :=
  let '(H, W) := kernel in
  windows <- sliding_window_view arr (H, W) ;;
  windows <- getitem_stride windows stride ;;
  windows <- copy windows ;;
  t <- from_numpy windows ;;
  t <- permute t [0; 2; 3; 1; 4; 5]%nat ;;
  reshape_infer t [C; H; W].

(** Lines 52-69: the value of [windows] just before the final squeeze. *)
Definition windows_before_squeeze (arr : ndarray A)
           (kernel : option (Z * Z)) (stride : option Z) : M (Tensor A) :=
  match kernel, stride with
  | Some kernel, Some stride =>
      '(arr, C) <- standardize arr ;;
      extract arr C kernel stride
  | _, _ => raise (AssertionError "kernel and stride must be given values")
  end.

Definition _sliding_window_snapshots (arr : ndarray A)
           (kernel : option (Z * Z)) (stride : option Z) : M (Tensor A) :=
  windows <- windows_before_squeeze arr kernel stride ;;
  ret (squeeze windows).

End Arrays.

(** Row-major array of the given shape holding 0, 1, 2, ... *)
Definition arange (s : list Z) : ndarray Z :=
  mk_ndarray s (zrange (prod s)).

(** The patches of a (P, kH, kW) tensor as nested lists. *)
Definition patches3 (t : Tensor Z) : list (list (list Z)) :=
  match shape t with
  | [P; kH; kW] =>
      map (fun p => map (fun u => map (fun v => item t [p; u; v]) (zrange kW))
                        (zrange kH))
          (zrange P)
  | _ => []
  end.

(** * Properties *)

(** ** The computation monad *)

Lemma result_bind_ok {X Y} (m : M X) (k : X -> M Y) (x : X) :
  result m = inr x -> result (bind m k) = result (k x).
Proof.
  destruct m as [l [e | x']]; cbn; intros E; inversion E; subst.
  destruct (k x) as [l' r]; reflexivity.
Qed.

Lemma result_bind_err {X Y} (m : M X) (k : X -> M Y) (e : PyError) :
  result m = inl e -> result (bind m k) = inl e.
Proof.
  destruct m as [l [e' | x']]; cbn; intros E; inversion E; subst; reflexivity.
Qed.

(** ** Row-major indexing *)

Lemma zrange_length (n : Z) : length (zrange n) = Z.to_nat n.
Proof. unfold zrange. rewrite length_map, length_seq. reflexivity. Qed.

Lemma nth_map_zrange {B} (g : Z -> B) (n : Z) (k : nat) (d : B) :
  (k < Z.to_nat n)%nat -> nth k (map g (zrange n)) d = g (Z.of_nat k).
Proof.
  intros Hk. unfold zrange. rewrite map_map.
  rewrite (nth_indep _ d (g (Z.of_nat 0))) by (rewrite length_map, length_seq; exact Hk).
  rewrite (map_nth (fun i => g (Z.of_nat i))).
  rewrite seq_nth by exact Hk. reflexivity.
Qed.

Lemma prod_nonneg (s : list Z) : nonneg s -> 0 <= prod s.
Proof.
  induction 1 as [| d s Hd _ IH]; [cbn; lia |].
  change (prod (d :: s)) with (d * prod s).
  apply Z.mul_nonneg_nonneg; assumption.
Qed.

Lemma ravel_bounds (s idx : list Z) :
  in_bounds s idx -> 0 <= ravel s idx < prod s.
Proof.
  induction 1 as [| d i s idx Hd _ IH]; [cbn; lia |].
  cbn [ravel]. change (prod (d :: s)) with (d * prod s).
  assert (0 <= i * prod s) by (apply Z.mul_nonneg_nonneg; lia).
  assert (i * prod s <= (d - 1) * prod s)
    by (apply Z.mul_le_mono_nonneg_r; lia).
  lia.
Qed.

Lemma unravel_ravel (s idx : list Z) :
  in_bounds s idx -> unravel s (ravel s idx) = idx.
Proof.
  induction 1 as [| d i s idx Hd Hr IH]; [reflexivity |].
  cbn [ravel unravel].
  pose proof (ravel_bounds _ _ Hr) as Hb.
  assert (Hp : 0 < prod s) by lia.
  rewrite Z.div_add_l by lia.
  rewrite Z.div_small by lia.
  rewrite (Z.add_comm (i * prod s)), Z.mod_add by lia.
  rewrite Z.mod_small by lia.
  rewrite IH. f_equal. lia.
Qed.

(** Discharges [in_bounds] on index lists of known length. *)
Ltac in_bounds_lia := repeat (constructor; [lia |]); constructor.

Section ArrayFacts.
Context {A : Type} {dtype : Dtype A}.

Lemma item_gather (s : list Z) (f : list Z -> list Z) (x : ndarray A)
      (idx : list Z) :
  in_bounds s idx -> item (gather s f x) idx = item x (f idx).
Proof.
  intros Hb. pose proof (ravel_bounds _ _ Hb) as Hr.
  unfold item at 1. cbn [gather shape elems].
  rewrite nth_map_zrange by lia.
  rewrite Z2Nat.id by lia.
  rewrite unravel_ravel by exact Hb. reflexivity.
Qed.

Lemma wf_gather (s : list Z) (f : list Z -> list Z) (x : ndarray A) :
  nonneg s -> wf (gather s f x).
Proof.
  intros Hs. split; [exact Hs |]. cbn [gather shape elems]. unfold len.
  rewrite length_map, zrange_length.
  apply Z2Nat.id, prod_nonneg, Hs.
Qed.

(** Two shapes that place an index at the same flat position read the
    same element. *)
Lemma item_same_flat (x y : ndarray A) (i j : list Z) :
  elems x = elems y -> ravel (shape x) i = ravel (shape y) j ->
  item x i = item y j.
Proof. unfold item. intros -> ->. reflexivity. Qed.

End ArrayFacts.

(** ** Strided selection *)

Lemma slice_len_nonneg (n step : Z) : 0 <= slice_len n step.
Proof.
  unfold slice_len. destruct (n <=? 0) eqn:E; [lia |].
  apply Z.leb_gt in E.
  destruct (Z.eq_dec step 0) as [-> | Hs].
  - change (Z.abs 0) with 0. rewrite Z.div_0_r. lia.
  - assert (0 <= (n - 1) / Z.abs step) by (apply Z.div_pos; lia).
    lia.
Qed.

Lemma slice_at_bounds (n step k : Z) :
  step <> 0 -> 0 <= k < slice_len n step -> 0 <= slice_at n step k < n.
Proof.
  unfold slice_len, slice_at. intros Hs Hk.
  destruct (n <=? 0) eqn:E; [lia |]. apply Z.leb_gt in E.
  assert (Ha : 0 < Z.abs step) by lia.
  assert (Hq : k <= (n - 1) / Z.abs step) by lia.
  assert (Hm : Z.abs step * ((n - 1) / Z.abs step) <= n - 1)
    by (apply Z.mul_div_le; lia).
  assert (Hkm : k * Z.abs step <= (n - 1) / Z.abs step * Z.abs step)
    by (apply Z.mul_le_mono_nonneg_r; lia).
  assert (0 <= k * Z.abs step) by (apply Z.mul_nonneg_nonneg; lia).
  destruct (0 <? step) eqn:P.
  - apply Z.ltb_lt in P. rewrite Z.abs_eq in * by lia. lia.
  - apply Z.ltb_ge in P. rewrite Z.abs_neq in * by lia. lia.
Qed.

(** With step 1 every position is kept, in order. *)
Lemma slice_len_1 (n : Z) : 0 <= n -> slice_len n 1 = n.
Proof.
  intros Hn. unfold slice_len. destruct (n <=? 0) eqn:E.
  - apply Z.leb_le in E. lia.
  - change (Z.abs 1) with 1. rewrite Z.div_1_r. lia.
Qed.

Lemma slice_at_1 (n k : Z) : slice_at n 1 k = k.
Proof. unfold slice_at. cbn. lia. Qed.

(** For a positive step the kept positions are 0, step, 2*step, ... and
    their number is floor((n-1)/step)+1. *)
Lemma slice_len_pos (n step : Z) :
  0 < n -> 0 < step -> slice_len n step = (n - 1) / step + 1.
Proof.
  intros Hn Hs. unfold slice_len.
  destruct (n <=? 0) eqn:E; [apply Z.leb_le in E; lia |].
  rewrite Z.abs_eq by lia. reflexivity.
Qed.

Lemma slice_at_pos (n step k : Z) : 0 < step -> slice_at n step k = k * step.
Proof.
  intros Hs. unfold slice_at.
  destruct (0 <? step) eqn:E; [reflexivity | apply Z.ltb_ge in E; lia].
Qed.

(** Window positions: the extent along a windowed axis of length [n] under
    a window of length [k] is [n - k + 1]. *)
Lemma slice_len_window_pos (n k s : Z) :
  k <= n -> 0 < s -> slice_len (n - k + 1) s = (n - k) / s + 1.
Proof.
  intros Hk Hs. rewrite slice_len_pos by lia.
  replace (n - k + 1 - 1) with (n - k) by lia. reflexivity.
Qed.

Lemma slice_len_window_neg (n k s : Z) :
  k <= n -> s < 0 -> slice_len (n - k + 1) s = (n - k) / (- s) + 1.
Proof.
  intros Hk Hs. unfold slice_len.
  destruct (n - k + 1 <=? 0) eqn:E; [apply Z.leb_le in E; lia |].
  rewrite Z.abs_neq by lia.
  replace (n - k + 1 - 1) with (n - k) by lia. reflexivity.
Qed.

Lemma slice_at_window_neg (n k s i : Z) :
  s < 0 -> slice_at (n - k + 1) s i = (n - k) - i * (- s).
Proof.
  intros Hs. unfold slice_at.
  destruct (0 <? s) eqn:E; [apply Z.ltb_lt in E; lia |]. lia.
Qed.

Section Steps.
Context {A : Type} {dtype : Dtype A}.

Lemma sliding_window_view_ok (x : ndarray A) (N C H W kH kW : Z) :
  shape x = [N; C; H; W] -> 0 <= kH <= H -> 0 <= kW <= W ->
  sliding_window_view x (kH, kW) =
  ([SlidingWindowView],
   inr (gather [N; C; H - (kH - 1); W - (kW - 1); kH; kW]
               (window_index 2) x)).
Proof.
  intros Hs HkH HkW. unfold sliding_window_view. rewrite Hs. cbn.
  assert (E1 : (kH <? 0) || (kW <? 0) = false)
    by (apply orb_false_iff; split; apply Z.ltb_ge; lia).
  assert (E2 : (H <? kH) || (W <? kW) = false)
    by (apply orb_false_iff; split; apply Z.ltb_ge; lia).
  rewrite E1, E2. reflexivity.
Qed.

Lemma getitem_stride_ok (x : ndarray A) (d0 d1 d2 d3 d4 d5 step : Z) :
  shape x = [d0; d1; d2; d3; d4; d5] -> step <> 0 ->
  result (getitem_stride x step) =
  inr (gather [d0; d1; slice_len d2 step; slice_len d3 step; d4; d5]
              (fun idx =>
                 match idx with
                 | a :: b :: i :: j :: tl =>
                     a :: b :: slice_at d2 step i :: slice_at d3 step j :: tl
                 | _ => idx
                 end) x).
Proof.
  intros Hs Hstep. unfold getitem_stride. rewrite Hs. cbn.
  destruct (step =? 0) eqn:E; [apply Z.eqb_eq in E; lia |]. reflexivity.
Qed.

Lemma permute_ok (t : Tensor A) (d0 d1 d2 d3 d4 d5 : Z) :
  shape t = [d0; d1; d2; d3; d4; d5] ->
  result (permute t [0; 2; 3; 1; 4; 5]%nat) =
  inr (gather [d0; d2; d3; d1; d4; d5]
              (fun idx =>
                 map (fun d => nth (index_of d [0; 2; 3; 1; 4; 5]%nat) idx 0)
                     (seq 0 6)) t).
Proof. intros Hs. unfold permute. rewrite Hs. reflexivity. Qed.

Lemma reshape_infer_ok (t : Tensor A) (P C kH kW : Z) :
  0 < C -> 0 < kH -> 0 < kW -> prod (shape t) = P * (C * kH * kW) ->
  result (reshape_infer t [C; kH; kW]) =
  inr (mk_ndarray [P; C; kH; kW] (elems t)).
Proof.
  intros HC HH HW Hn. unfold reshape_infer.
  assert (Hnew : prod [C; kH; kW] = C * kH * kW) by (cbn; lia).
  assert (Hpos : 0 < C * kH * kW) by (repeat apply Z.mul_pos_pos; lia).
  assert (F : find (fun d => d <? 0) [C; kH; kW] = None).
  { cbn. destruct (C <? 0) eqn:E1; [apply Z.ltb_lt in E1; lia |].
    destruct (kH <? 0) eqn:E2; [apply Z.ltb_lt in E2; lia |].
    destruct (kW <? 0) eqn:E3; [apply Z.ltb_lt in E3; lia |]. reflexivity. }
  rewrite F, Hnew, Hn.
  rewrite Z.mod_mul by lia. rewrite Z.div_mul by lia.
  assert (E0 : (0 <? C * kH * kW) = true) by (apply Z.ltb_lt; lia).
  assert (E1 : (C * kH * kW =? 0) = false) by (apply Z.eqb_neq; lia).
  rewrite E0, E1. cbn [andb]. rewrite Z.eqb_refl, orb_true_r. reflexivity.
Qed.

End Steps.

(** ** Lines 66-69 on a four-axis array *)

Section Extract.
Context {A : Type} {dtype : Dtype A}.

(** On an (N, C, H, W) array, with the channel count that the array has,
    a kernel that fits and a nonzero step, lines 66-69 return P = N * Hp *
    Wp patches of shape (C, kH, kW); patch (n, i, j) sits at flat position
    (n * Hp + i) * Wp + j and is the window of sample n whose corner is
    the i-th selected row position and the j-th selected column position. *)
Lemma extract_spec (x : ndarray A) (N C H W kH kW s : Z) :
  shape x = [N; C; H; W] ->
  0 <= N -> 0 < C -> 0 < kH <= H -> 0 < kW <= W -> s <> 0 ->
  exists t : Tensor A,
    result (extract x C (kH, kW) s) = inr t /\
    shape t = [N * slice_len (H - kH + 1) s * slice_len (W - kW + 1) s;
               C; kH; kW] /\
    forall n i j c u v,
      0 <= n < N ->
      0 <= i < slice_len (H - kH + 1) s ->
      0 <= j < slice_len (W - kW + 1) s ->
      0 <= c < C -> 0 <= u < kH -> 0 <= v < kW ->
      item t [(n * slice_len (H - kH + 1) s + i) * slice_len (W - kW + 1) s + j;
              c; u; v]
      = item x [n; c; slice_at (H - kH + 1) s i + u;
                slice_at (W - kW + 1) s j + v].
Proof.
  intros Hs HN HC HkH HkW Hstep.
  set (Hp := slice_len (H - kH + 1) s).
  set (Wp := slice_len (W - kW + 1) s).
  pose proof (slice_len_nonneg (H - kH + 1) s) as HHp. fold Hp in HHp.
  pose proof (slice_len_nonneg (W - kW + 1) s) as HWp. fold Wp in HWp.
  set (w1 := gather [N; C; H - (kH - 1); W - (kW - 1); kH; kW]
                    (window_index 2) x).
  set (f2 := fun idx : list Z =>
               match idx with
               | a :: b :: i :: j :: tl =>
                   a :: b :: slice_at (H - (kH - 1)) s i
                     :: slice_at (W - (kW - 1)) s j :: tl
               | _ => idx
               end).
  set (w2 := gather [N; C; slice_len (H - (kH - 1)) s;
                     slice_len (W - (kW - 1)) s; kH; kW] f2 w1).
  set (f3 := fun idx : list Z =>
               map (fun d => nth (index_of d [0; 2; 3; 1; 4; 5]%nat) idx 0)
                   (seq 0 6)).
  set (w3 := gather [N; slice_len (H - (kH - 1)) s;
                     slice_len (W - (kW - 1)) s; C; kH; kW] f3 w2).
  assert (EH : H - (kH - 1) = H - kH + 1) by lia.
  assert (EW : W - (kW - 1) = W - kW + 1) by lia.
  exists (mk_ndarray [N * Hp * Wp; C; kH; kW] (elems w3)).
  split; [| split; [reflexivity |]].
  - unfold extract.
    rewrite (result_bind_ok _ _ w1)
      by (rewrite (sliding_window_view_ok x N C H W) by (assumption || lia);
          reflexivity).
    rewrite (result_bind_ok _ _ w2)
      by (apply getitem_stride_ok; [reflexivity | exact Hstep]).
    rewrite (result_bind_ok _ _ w2) by reflexivity.
    rewrite (result_bind_ok _ _ w2) by reflexivity.
    rewrite (result_bind_ok _ _ w3) by (apply permute_ok; reflexivity).
    apply reshape_infer_ok; try lia.
    subst w3. cbn [gather shape]. rewrite EH, EW. fold Hp Wp.
    cbn [prod fold_right]. ring.
  - intros n i j c u v Hn Hi Hj Hc Hu Hv.
    transitivity (item w3 [n; i; j; c; u; v]).
    { apply item_same_flat; [reflexivity |].
      subst w3. cbn [gather shape]. rewrite EH, EW. fold Hp Wp.
      cbn [ravel prod fold_right]. ring. }
    subst w3. rewrite item_gather.
    2:{ rewrite EH, EW. fold Hp Wp. in_bounds_lia. }
    change (f3 [n; i; j; c; u; v]) with [n; c; i; j; u; v].
    subst w2. rewrite item_gather.
    2:{ rewrite EH, EW. fold Hp Wp. in_bounds_lia. }
    change (f2 [n; c; i; j; u; v])
      with [n; c; slice_at (H - (kH - 1)) s i;
            slice_at (W - (kW - 1)) s j; u; v].
    rewrite EH, EW.
    pose proof (slice_at_bounds (H - kH + 1) s i Hstep Hi) as Bi.
    pose proof (slice_at_bounds (W - kW + 1) s j Hstep Hj) as Bj.
    subst w1. rewrite item_gather.
    2:{ rewrite EH, EW. in_bounds_lia. }
    reflexivity.
Qed.

(** With step 0 the subsampling index is what fails, after the windowed
    view has been made. *)
Lemma extract_zero_stride (x : ndarray A) (N C H W kH kW C' : Z) :
  shape x = [N; C; H; W] -> 0 <= kH <= H -> 0 <= kW <= W ->
  extract x C' (kH, kW) 0 =
  ([SlidingWindowView; GetItem],
   inl (ValueError "slice step cannot be zero")).
Proof.
  intros Hs HkH HkW. unfold extract.
  rewrite (sliding_window_view_ok x N C H W) by (assumption || lia).
  reflexivity.
Qed.

End Extract.

(** ** Lines 57-64 *)

Section Standardize.
Context {A : Type} {dtype : Dtype A}.

Lemma standardize_rank2 (H W : Z) (l : list A) :
  standardize (mk_ndarray [H; W] l) =
  ([Shape; Shape; GetItem], inr (mk_ndarray [1; 1; H; W] l, 1)).
Proof. reflexivity. Qed.

Lemma standardize_rank3 (C H W : Z) (l : list A) :
  standardize (mk_ndarray [C; H; W] l) =
  ([Shape; GetItem; Shape], inr (mk_ndarray [1; C; H; W] l, C)).
Proof. reflexivity. Qed.

(** Any rank other than 2 and 3 takes the [else] branch. *)
Lemma standardize_other (arr : ndarray A) :
  len (shape arr) <> 2 -> len (shape arr) <> 3 ->
  standardize arr = ([Shape; Shape], inr (arr, 3)).
Proof.
  intros H2 H3. unfold standardize, get_shape. cbn.
  destruct (len (shape arr) =? 3) eqn:E3; [apply Z.eqb_eq in E3; lia |].
  cbn.
  destruct (len (shape arr) =? 2) eqn:E2; [apply Z.eqb_eq in E2; lia |].
  reflexivity.
Qed.

Lemma standardize_rank4 (N C H W : Z) (l : list A) :
  standardize (mk_ndarray [N; C; H; W] l) =
  ([Shape; Shape], inr (mk_ndarray [N; C; H; W] l, 3)).
Proof. reflexivity. Qed.

(** Adding leading axes of extent 1 leaves every element where it was. *)
Lemma item_newaxis (s : list Z) (l : list A) (idx : list Z) :
  item (mk_ndarray (1 :: s) l) (0 :: idx) = item (mk_ndarray s l) idx.
Proof. unfold item. cbn [shape elems ravel]. f_equal. Qed.

End Standardize.

(** ** Lines 52-69 on the supported inputs *)

Section Windows.
Context {A : Type} {dtype : Dtype A}.

(** Whenever normalization hands over an (N, C, H, W) array together with
    that array's own channel count, the patches are the selected windows of
    the normalized array in (sample, row position, column position)
    order. *)
Lemma windows_before_squeeze_spec (arr arr4 : ndarray A)
      (N C H W kH kW s : Z) :
  result (standardize arr) = inr (arr4, C) ->
  shape arr4 = [N; C; H; W] ->
  0 <= N -> 0 < C -> 0 < kH <= H -> 0 < kW <= W -> s <> 0 ->
  exists w : Tensor A,
    result (windows_before_squeeze arr (Some (kH, kW)) (Some s)) = inr w /\
    result (_sliding_window_snapshots arr (Some (kH, kW)) (Some s))
      = inr (squeeze w) /\
    shape w = [N * slice_len (H - kH + 1) s * slice_len (W - kW + 1) s;
               C; kH; kW] /\
    forall n i j c u v,
      0 <= n < N ->
      0 <= i < slice_len (H - kH + 1) s ->
      0 <= j < slice_len (W - kW + 1) s ->
      0 <= c < C -> 0 <= u < kH -> 0 <= v < kW ->
      item w [(n * slice_len (H - kH + 1) s + i) * slice_len (W - kW + 1) s + j;
              c; u; v]
      = item arr4 [n; c; slice_at (H - kH + 1) s i + u;
                   slice_at (W - kW + 1) s j + v].
Proof.
  intros Hstd Hs HN HC HkH HkW Hstep.
  destruct (extract_spec arr4 N C H W kH kW s Hs HN HC HkH HkW Hstep)
    as (w & Hres & Hshape & Hitem).
  assert (Hw : result (windows_before_squeeze arr (Some (kH, kW)) (Some s))
               = inr w).
  { unfold windows_before_squeeze.
    rewrite (result_bind_ok _ _ (arr4, C)) by exact Hstd. exact Hres. }
  exists w. repeat split; try assumption.
  unfold _sliding_window_snapshots.
  rewrite (result_bind_ok _ _ w) by exact Hw. reflexivity.
Qed.

(** Rank 2: one sample, one channel. *)
Lemma rank2_patches (arr : ndarray A) (H W kH kW s : Z) :
  shape arr = [H; W] -> 0 < kH <= H -> 0 < kW <= W -> 0 < s ->
  exists w : Tensor A,
    result (windows_before_squeeze arr (Some (kH, kW)) (Some s)) = inr w /\
    shape w = [1 * ((H - kH) / s + 1) * ((W - kW) / s + 1); 1; kH; kW] /\
    forall i j u v,
      0 <= i < (H - kH) / s + 1 -> 0 <= j < (W - kW) / s + 1 ->
      0 <= u < kH -> 0 <= v < kW ->
      item w [i * ((W - kW) / s + 1) + j; 0; u; v]
      = item arr [i * s + u; j * s + v].
Proof.
  intros Hs HkH HkW Hstep.
  destruct arr as [sh el]. cbn [shape] in Hs. subst sh.
  destruct (windows_before_squeeze_spec
              (mk_ndarray [H; W] el) (mk_ndarray [1; 1; H; W] el)
              1 1 H W kH kW s)
    as (w & Hw & _ & Hshape & Hitem);
    [rewrite standardize_rank2; reflexivity | reflexivity | lia .. |].
  exists w. split; [exact Hw |]. split.
  - rewrite Hshape. rewrite !slice_len_window_pos by lia. reflexivity.
  - intros i j u v Hi Hj Hu Hv.
    pose proof (Hitem 0 i j 0 u v) as E.
    rewrite !slice_len_window_pos, !slice_at_pos in E by lia.
    rewrite !item_newaxis in E.
    replace ((0 * ((H - kH) / s + 1) + i) * ((W - kW) / s + 1) + j)
      with (i * ((W - kW) / s + 1) + j) in E by ring.
    apply E; lia.
Qed.

(** Rank 3: one sample, the channels of the input. *)
Lemma rank3_patches (arr : ndarray A) (C H W kH kW s : Z) :
  shape arr = [C; H; W] -> 0 < C -> 0 < kH <= H -> 0 < kW <= W -> 0 < s ->
  exists w : Tensor A,
    result (windows_before_squeeze arr (Some (kH, kW)) (Some s)) = inr w /\
    shape w = [1 * ((H - kH) / s + 1) * ((W - kW) / s + 1); C; kH; kW] /\
    forall i j c u v,
      0 <= i < (H - kH) / s + 1 -> 0 <= j < (W - kW) / s + 1 ->
      0 <= c < C -> 0 <= u < kH -> 0 <= v < kW ->
      item w [i * ((W - kW) / s + 1) + j; c; u; v]
      = item arr [c; i * s + u; j * s + v].
Proof.
  intros Hs HC HkH HkW Hstep.
  destruct arr as [sh el]. cbn [shape] in Hs. subst sh.
  destruct (windows_before_squeeze_spec
              (mk_ndarray [C; H; W] el) (mk_ndarray [1; C; H; W] el)
              1 C H W kH kW s)
    as (w & Hw & _ & Hshape & Hitem);
    [rewrite standardize_rank3; reflexivity | reflexivity | lia .. |].
  exists w. split; [exact Hw |]. split.
  - rewrite Hshape. rewrite !slice_len_window_pos by lia. reflexivity.
  - intros i j c u v Hi Hj Hc Hu Hv.
    pose proof (Hitem 0 i j c u v) as E.
    rewrite !slice_len_window_pos, !slice_at_pos in E by lia.
    rewrite item_newaxis in E.
    replace ((0 * ((H - kH) / s + 1) + i) * ((W - kW) / s + 1) + j)
      with (i * ((W - kW) / s + 1) + j) in E by ring.
    apply E; lia.
Qed.

End Windows.

(** ** Failure paths *)

Lemma result_bind_inv {X Y} (m : M X) (k : X -> M Y) (y : Y) :
  result (bind m k) = inr y ->
  exists x, result m = inr x /\ result (k x) = inr y.
Proof.
  destruct m as [l [e | x]]; cbn; intros E; [discriminate |].
  exists x. split; [reflexivity |].
  destruct (k x) as [l' r]; exact E.
Qed.

Lemma bind_ok_eq {X Y} (m : M X) (k : X -> M Y) (l : list access) (x : X) :
  m = (l, inr x) -> bind m k = (l ++ trace (k x), result (k x)).
Proof. intros ->. cbn. destruct (k x); reflexivity. Qed.

Section Failures.
Context {A : Type} {dtype : Dtype A}.

(** A successful reshape yields the requested trailing extents and keeps
    the elements in order. *)
Lemma reshape_infer_shape (t w : Tensor A) (rest : list Z) :
  result (reshape_infer t rest) = inr w ->
  exists P, w = mk_ndarray (P :: rest) (elems t).
Proof.
  unfold reshape_infer.
  destruct (find (fun d => d <? 0) rest); [discriminate |].
  destruct ((prod (shape t) =? prod rest)
            || (0 <? prod rest) && (prod (shape t) mod prod rest =? 0));
    [| discriminate].
  destruct (prod rest =? 0); [discriminate |].
  cbn. intros E. inversion E. eexists. reflexivity.
Qed.

Lemma nth_last_two (lead : list Z) (a b : Z) :
  nth (length (lead ++ [a; b]) - 2) (lead ++ [a; b]) 0 = a /\
  nth (S (length (lead ++ [a; b]) - 2)) (lead ++ [a; b]) 0 = b.
Proof.
  rewrite length_app. cbn [length].
  replace (length lead + 2 - 2)%nat with (length lead) by lia.
  split.
  - rewrite app_nth2 by lia. rewrite Nat.sub_diag. reflexivity.
  - rewrite app_nth2 by lia.
    replace (S (length lead) - length lead)%nat with 1%nat by lia.
    reflexivity.
Qed.

(** The windowing primitive rejects a window that exceeds either of the last
    two axes, whatever the leading axes are. *)
Lemma sliding_window_view_too_large (x : ndarray A) (lead : list Z)
      (H W kH kW : Z) :
  shape x = lead ++ [H; W] -> H < kH \/ W < kW ->
  sliding_window_view x (kH, kW) =
  ([SlidingWindowView],
   inl (ValueError
          (if (kH <? 0) || (kW <? 0)
           then "`window_shape` cannot contain negative values"
           else "window shape cannot be larger than input array shape"))).
Proof.
  intros Hs Hbig. unfold sliding_window_view.
  destruct ((kH <? 0) || (kW <? 0)); [reflexivity |].
  destruct (nth_last_two lead H W) as [EH EW].
  rewrite Hs, EH, EW.
  assert (L : (len (lead ++ [H; W]) <? 2) = false).
  { apply Z.ltb_ge. unfold len. rewrite length_app. cbn [length]. lia. }
  rewrite L.
  assert (B : (H <? kH) || (W <? kW) = true).
  { apply orb_true_iff. destruct Hbig; [left | right]; apply Z.ltb_lt; lia. }
  rewrite B. reflexivity.
Qed.

(** Normalization keeps the last two axes. *)
Lemma standardize_keeps_spatial (arr : ndarray A) (lead : list Z) (H W : Z) :
  shape arr = lead ++ [H; W] ->
  exists l arr' C lead',
    standardize arr = (l, inr (arr', C)) /\ shape arr' = lead' ++ [H; W].
Proof.
  destruct arr as [sh el]. cbn [shape]. intros ->.
  destruct lead as [| a [| b r]].
  - exists [Shape; Shape; GetItem], (mk_ndarray [1; 1; H; W] el), 1, [1; 1].
    split; reflexivity.
  - exists [Shape; GetItem; Shape], (mk_ndarray [1; a; H; W] el), a, [1; a].
    split; reflexivity.
  - exists [Shape; Shape], (mk_ndarray ((a :: b :: r) ++ [H; W]) el), 3,
      (a :: b :: r).
    split; [| reflexivity].
    apply standardize_other; cbn [shape]; unfold len;
      rewrite length_app; cbn [length]; lia.
Qed.

(** *** Which ranks can return at all *)

Lemma sliding_window_view_rank (x w : ndarray A) (k : Z * Z) :
  result (sliding_window_view x k) = inr w ->
  length (shape w) = (length (shape x) + 2)%nat.
Proof.
  destruct k as [h w']. unfold sliding_window_view.
  destruct ((h <? 0) || (w' <? 0)); [discriminate |].
  destruct (len (shape x) <? 2) eqn:L; [discriminate |].
  destruct ((nth (length (shape x) - 2) (shape x) 0 <? h)
            || (nth (S (length (shape x) - 2)) (shape x) 0 <? w'));
    [discriminate |].
  cbn. intros E. inversion E. cbn [shape gather].
  apply Z.ltb_ge in L. unfold len in L.
  rewrite length_app, length_firstn. cbn [length]. lia.
Qed.

Lemma getitem_stride_rank (x w : ndarray A) (step : Z) :
  result (getitem_stride x step) = inr w ->
  length (shape w) = length (shape x).
Proof.
  unfold getitem_stride.
  destruct (shape x) as [| d0 [| d1 [| d2 [| d3 [| d4 [| d5 rest]]]]]];
    try discriminate.
  destruct (step =? 0); [discriminate |].
  cbn. intros E. inversion E. reflexivity.
Qed.

Lemma permute_rank (t w : Tensor A) (dims : list nat) :
  result (permute t dims) = inr w -> length dims = length (shape t).
Proof.
  unfold permute.
  destruct (Nat.eqb (length dims) (length (shape t))) eqn:E;
    [| discriminate].
  intros _. apply Nat.eqb_eq. exact E.
Qed.

Lemma copy_result (x w : ndarray A) : result (copy x) = inr w -> w = x.
Proof. cbn. intros E. inversion E. reflexivity. Qed.

Lemma from_numpy_result (x w : ndarray A) :
  result (from_numpy x) = inr w -> w = x.
Proof. cbn. intros E. inversion E. reflexivity. Qed.

(** Lines 66-69 succeed only on a four-axis array. *)
Lemma extract_returns_rank4 (x : ndarray A) (C : Z) (k : Z * Z) (s : Z)
      (t : Tensor A) :
  result (extract x C k s) = inr t -> length (shape x) = 4%nat.
Proof.
  destruct k as [kH kW]. unfold extract. intros Hex.
  apply result_bind_inv in Hex as (w1 & H1 & Hex).
  apply result_bind_inv in Hex as (w2 & H2 & Hex).
  apply result_bind_inv in Hex as (w3 & H3 & Hex).
  apply result_bind_inv in Hex as (w4 & H4 & Hex).
  apply result_bind_inv in Hex as (w5 & H5 & _).
  apply sliding_window_view_rank in H1.
  apply getitem_stride_rank in H2.
  apply copy_result in H3. apply from_numpy_result in H4. subst w4 w3.
  apply permute_rank in H5. cbn [length] in H5. lia.
Qed.

(** X3: the function returns a tensor only for inputs of rank 2, 3 or 4; on
    every other rank, whatever the kernel and the stride, it ends in an
    exception. *)
Lemma returns_only_on_supported_rank (arr : ndarray A)
      (kernel : option (Z * Z)) (stride : option Z) (t : Tensor A) :
  result (_sliding_window_snapshots arr kernel stride) = inr t ->
  len (shape arr) = 2 \/ len (shape arr) = 3 \/ len (shape arr) = 4.
Proof.
  intros Hres.
  destruct (Z.eq_dec (len (shape arr)) 2) as [| N2]; [tauto |].
  destruct (Z.eq_dec (len (shape arr)) 3) as [| N3]; [tauto |].
  right. right.
  unfold _sliding_window_snapshots in Hres.
  apply result_bind_inv in Hres as (w & Hw & _).
  destruct kernel as [k |]; [| discriminate Hw].
  destruct stride as [s |]; [| discriminate Hw].
  unfold windows_before_squeeze in Hw.
  rewrite (standardize_other arr N2 N3) in Hw.
  apply result_bind_inv in Hw as ([arr' C] & Hstd & Hex).
  cbn in Hstd. inversion Hstd; subst arr' C.
  apply extract_returns_rank4 in Hex. unfold len. lia.
Qed.

(** X4: below rank 2 the windowing primitive has no axis -2: for a kernel
    without negative entries the call raises numpy's [AxisError], which is a
    [ValueError], whatever the stride. *)
Lemma rank_below_2_raises_axis_error (arr : ndarray A) (kH kW s : Z) :
  len (shape arr) < 2 -> 0 <= kH -> 0 <= kW ->
  result (_sliding_window_snapshots arr (Some (kH, kW)) (Some s))
  = inl (AxisError (-2) (len (shape arr))).
Proof.
  intros Hr HkH HkW.
  unfold _sliding_window_snapshots. apply result_bind_err.
  unfold windows_before_squeeze.
  rewrite (result_bind_ok _ _ (arr, 3))
    by (rewrite standardize_other by lia; reflexivity).
  unfold extract. apply result_bind_err. unfold sliding_window_view.
  assert (N : (kH <? 0) || (kW <? 0) = false)
    by (apply orb_false_iff; split; apply Z.ltb_ge; lia).
  assert (L : (len (shape arr) <? 2) = true) by (apply Z.ltb_lt; lia).
  rewrite N, L. reflexivity.
Qed.

End Failures.

(** * The extractor's contract *)

(** C5: the rank-normalization step uses channel count C = 1 for every rank-2
    input (H, W), which it reshapes to (1, 1, H, W), and C equal to the first
    axis for every rank-3 input (C, H, W), which it reshapes to (1, C, H, W);
    in both cases the elements stay in place. *)
Theorem standardize_channel_count {A : Type} {dtype : Dtype A} :
  (forall (H W : Z) (l : list A),
      result (standardize (mk_ndarray [H; W] l))
      = inr (mk_ndarray [1; 1; H; W] l, 1)) /\
  (forall (C H W : Z) (l : list A),
      result (standardize (mk_ndarray [C; H; W] l))
      = inr (mk_ndarray [1; C; H; W] l, C)).
Proof.
  split; intros.
  - rewrite standardize_rank2. reflexivity.
  - rewrite standardize_rank3. reflexivity.
Qed.

(** C7: with [kernel=None] or [stride=None] the call raises the assertion
    error, and it does so with an empty access log: nothing of the array has
    been read or indexed on that path. *)
Theorem missing_argument_fails_fast {A : Type} {dtype : Dtype A}
        (arr : ndarray A) (kernel : option (Z * Z)) (stride : option Z) :
  kernel = None \/ stride = None ->
  _sliding_window_snapshots arr kernel stride
  = ([], inl (AssertionError "kernel and stride must be given values")).
Proof.
  intros [-> | ->].
  - reflexivity.
  - destruct kernel; reflexivity.
Qed.

Lemma missing_argument_fails_fast_witness :
  (@None (Z * Z) = None \/ Some 2 = None) /\
  _sliding_window_snapshots (arange [4; 4]) None (Some 2)
  = ([], inl (AssertionError "kernel and stride must be given values")).
Proof.
  split.
  - left. reflexivity.
  - apply (missing_argument_fails_fast (arange [4; 4]) None (Some 2)).
    left. reflexivity.
Defined.

(** C4: on the 4x4 array holding 0..15 in row-major order, with kernel (2, 2)
    and stride 2, the function returns a (4, 2, 2) tensor whose patches are,
    in order, [[0,1],[4,5]], [[2,3],[6,7]], [[8,9],[12,13]],
    [[10,11],[14,15]]. *)
Theorem end_to_end_4x4 :
  exists t : Tensor Z,
    result (_sliding_window_snapshots (arange [4; 4]) (Some (2, 2)) (Some 2))
    = inr t /\
    shape t = [4; 2; 2] /\
    patches3 t = [ [[0; 1]; [4; 5]]; [[2; 3]; [6; 7]];
                   [[8; 9]; [12; 13]]; [[10; 11]; [14; 15]] ].
Proof.
  eexists. split; [vm_compute; reflexivity |]. split; reflexivity.
Qed.

(** C8: whenever the kernel height exceeds the height H, or the kernel width
    exceeds the width W, of the array (its last two axes, which normalization
    keeps), the call returns no result: it raises a [ValueError], and the last
    thing done to an array is the call of the windowing primitive, which is
    what raises it.  For a kernel without negative entries the error is the
    primitive's own complaint that the window is larger than the array. *)
Theorem kernel_too_large_raises {A : Type} {dtype : Dtype A}
        (arr : ndarray A) (lead : list Z) (H W kH kW s : Z) :
  shape arr = lead ++ [H; W] -> H < kH \/ W < kW ->
  exists e : PyError,
    result (_sliding_window_snapshots arr (Some (kH, kW)) (Some s)) = inl e /\
    is_ValueError e = true /\
    last (trace (_sliding_window_snapshots arr (Some (kH, kW)) (Some s))) Shape
    = SlidingWindowView /\
    (0 <= kH -> 0 <= kW ->
     e = ValueError "window shape cannot be larger than input array shape").
Proof.
  intros Hs Hbig.
  destruct (standardize_keeps_spatial arr lead H W Hs)
    as (l & arr' & C & lead' & Hstd & Hs').
  pose proof (sliding_window_view_too_large arr' lead' H W kH kW Hs' Hbig)
    as Hsw.
  assert (E : _sliding_window_snapshots arr (Some (kH, kW)) (Some s)
              = (l ++ [SlidingWindowView],
                 inl (ValueError
                        (if (kH <? 0) || (kW <? 0)
                         then "`window_shape` cannot contain negative values"
                         else "window shape cannot be larger than input array shape")))).
  { unfold _sliding_window_snapshots, windows_before_squeeze.
    rewrite (bind_ok_eq _ _ l (arr', C) Hstd).
    unfold extract. rewrite Hsw. reflexivity. }
  rewrite E. eexists. split; [reflexivity |]. split; [| split].
  - destruct ((kH <? 0) || (kW <? 0)); reflexivity.
  - cbn [trace fst]. apply last_last.
  - intros H0 W0.
    assert (N : (kH <? 0) || (kW <? 0) = false)
      by (apply orb_false_iff; split; apply Z.ltb_ge; lia).
    rewrite N. reflexivity.
Qed.

Lemma kernel_too_large_raises_witness :
  shape (arange [4; 4]) = [] ++ [4; 4] /\ (4 < 5 \/ 4 < 2) /\
  exists e : PyError,
    result (_sliding_window_snapshots (arange [4; 4]) (Some (5, 2)) (Some 1))
    = inl e /\
    is_ValueError e = true /\
    last (trace (_sliding_window_snapshots (arange [4; 4]) (Some (5, 2))
                                           (Some 1))) Shape
    = SlidingWindowView /\
    (0 <= 5 -> 0 <= 2 ->
     e = ValueError "window shape cannot be larger than input array shape").
Proof.
  split; [reflexivity |]. split; [left; lia |].
  apply (kernel_too_large_raises (arange [4; 4]) [] 4 4 5 2 1).
  - reflexivity.
  - left. lia.
Defined.

(** C6: the returned tensor is the (P, C, kH, kW) patch tensor with every
    axis of extent 1 removed: no axis of extent 1 remains; if C = 1 the
    channel axis is gone, and if the patch count P = 1 the leading axis is
    gone. *)
Theorem squeeze_removes_singletons {A : Type} {dtype : Dtype A}
        (arr : ndarray A) (kernel : option (Z * Z)) (stride : option Z)
        (t : Tensor A) :
  result (_sliding_window_snapshots arr kernel stride) = inr t ->
  exists P C kH kW : Z,
    kernel = Some (kH, kW) /\
    result (windows_before_squeeze arr kernel stride)
    = inr (mk_ndarray [P; C; kH; kW] (elems t)) /\
    shape t = filter (fun d => negb (d =? 1)) [P; C; kH; kW] /\
    ~ In 1 (shape t) /\
    (C = 1 -> shape t = filter (fun d => negb (d =? 1)) [P; kH; kW]) /\
    (P = 1 -> shape t = filter (fun d => negb (d =? 1)) [C; kH; kW]).
Proof.
  intros Hres. unfold _sliding_window_snapshots in Hres.
  apply result_bind_inv in Hres as (w & Hw & Ht).
  cbn in Ht. inversion Ht as [Et]. clear Ht.
  destruct kernel as [[kH kW] |]; [| discriminate Hw].
  destruct stride as [s |]; [| discriminate Hw].
  pose proof Hw as Hw'.
  unfold windows_before_squeeze in Hw'.
  apply result_bind_inv in Hw' as ([arr' C] & _ & Hex).
  unfold extract in Hex.
  apply result_bind_inv in Hex as (w1 & _ & Hex).
  apply result_bind_inv in Hex as (w2 & _ & Hex).
  apply result_bind_inv in Hex as (w3 & _ & Hex).
  apply result_bind_inv in Hex as (w4 & _ & Hex).
  apply result_bind_inv in Hex as (w5 & _ & Hex).
  apply reshape_infer_shape in Hex as (P & Ew).
  exists P, C, kH, kW.
  assert (Es : shape (squeeze w)
               = filter (fun d => negb (d =? 1)) [P; C; kH; kW])
    by (rewrite Ew; reflexivity).
  split; [reflexivity |]. split; [| split; [exact Es | split; [| split]]].
  - rewrite Hw. f_equal. rewrite Ew. reflexivity.
  - rewrite Es. intros Hin. apply filter_In in Hin as [_ Hin]. discriminate Hin.
  - intros ->. rewrite Es. cbn [filter]. rewrite Z.eqb_refl. reflexivity.
  - intros ->. rewrite Es. cbn [filter]. rewrite Z.eqb_refl. reflexivity.
Qed.

Lemma squeeze_removes_singletons_witness :
  result (_sliding_window_snapshots (arange [4; 4]) (Some (2, 2)) (Some 2))
  = inr (mk_ndarray [4; 2; 2]
           [0; 1; 4; 5; 2; 3; 6; 7; 8; 9; 12; 13; 10; 11; 14; 15]) /\
  exists P C kH kW : Z,
    Some (2, 2) = Some (kH, kW) /\
    result (windows_before_squeeze (arange [4; 4]) (Some (2, 2)) (Some 2))
    = inr (mk_ndarray [P; C; kH; kW]
             [0; 1; 4; 5; 2; 3; 6; 7; 8; 9; 12; 13; 10; 11; 14; 15]) /\
    [4; 2; 2] = filter (fun d => negb (d =? 1)) [P; C; kH; kW] /\
    ~ In 1 [4; 2; 2] /\
    (C = 1 -> [4; 2; 2] = filter (fun d => negb (d =? 1)) [P; kH; kW]) /\
    (P = 1 -> [4; 2; 2] = filter (fun d => negb (d =? 1)) [C; kH; kW]).
Proof.
  split; [vm_compute; reflexivity |].
  apply (squeeze_removes_singletons (arange [4; 4]) (Some (2, 2)) (Some 2)
           (mk_ndarray [4; 2; 2]
              [0; 1; 4; 5; 2; 3; 6; 7; 8; 9; 12; 13; 10; 11; 14; 15])).
  vm_compute. reflexivity.
Defined.

(** C9: on a rank-4 input whose channel axis has extent 3, with a kernel that
    fits and a positive stride s, the hard-coded C = 3 is the true channel
    count: the call returns N * Hpos * Wpos patches of shape (3, kH, kW),
    Hpos = floor((H-kH)/s)+1 and Wpos = floor((W-kW)/s)+1, and the patch at
    flat position (n * Hpos + i) * Wpos + j is the window
    arr[n, :, i*s : i*s+kH, j*s : j*s+kW]; the returned tensor is that patch
    tensor squeezed. *)
Theorem rank4_three_channels {A : Type} {dtype : Dtype A}
        (arr : ndarray A) (N H W kH kW s : Z) :
  shape arr = [N; 3; H; W] ->
  0 <= N -> 0 < kH <= H -> 0 < kW <= W -> 0 < s ->
  exists w : Tensor A,
    result (windows_before_squeeze arr (Some (kH, kW)) (Some s)) = inr w /\
    result (_sliding_window_snapshots arr (Some (kH, kW)) (Some s))
    = inr (squeeze w) /\
    shape w = [N * ((H - kH) / s + 1) * ((W - kW) / s + 1); 3; kH; kW] /\
    forall n i j c u v,
      0 <= n < N ->
      0 <= i < (H - kH) / s + 1 ->
      0 <= j < (W - kW) / s + 1 ->
      0 <= c < 3 -> 0 <= u < kH -> 0 <= v < kW ->
      item w [(n * ((H - kH) / s + 1) + i) * ((W - kW) / s + 1) + j; c; u; v]
      = item arr [n; c; i * s + u; j * s + v].
Proof.
  intros Hs HN HkH HkW Hstep.
  destruct arr as [sh el]. cbn [shape] in Hs. subst sh.
  destruct (windows_before_squeeze_spec
              (mk_ndarray [N; 3; H; W] el) (mk_ndarray [N; 3; H; W] el)
              N 3 H W kH kW s)
    as (w & Hw & Hsq & Hshape & Hitem);
    [rewrite standardize_rank4; reflexivity | reflexivity | lia .. |].
  exists w. split; [exact Hw |]. split; [exact Hsq |]. split.
  - rewrite Hshape. rewrite !slice_len_window_pos by lia. reflexivity.
  - intros n i j c u v Hn Hi Hj Hc Hu Hv.
    pose proof (Hitem n i j c u v) as E.
    rewrite !slice_len_window_pos, !slice_at_pos in E by lia.
    apply E; assumption.
Qed.

Lemma rank4_three_channels_witness :
  shape (arange [2; 3; 3; 3]) = [2; 3; 3; 3] /\
  0 <= 2 /\ 0 < 2 <= 3 /\ 0 < 2 <= 3 /\ 0 < 1 /\
  exists w : Tensor Z,
    result (windows_before_squeeze (arange [2; 3; 3; 3]) (Some (2, 2)) (Some 1))
    = inr w /\
    result (_sliding_window_snapshots (arange [2; 3; 3; 3]) (Some (2, 2))
                                      (Some 1))
    = inr (squeeze w) /\
    shape w = [2 * ((3 - 2) / 1 + 1) * ((3 - 2) / 1 + 1); 3; 2; 2] /\
    forall n i j c u v,
      0 <= n < 2 ->
      0 <= i < (3 - 2) / 1 + 1 ->
      0 <= j < (3 - 2) / 1 + 1 ->
      0 <= c < 3 -> 0 <= u < 2 -> 0 <= v < 2 ->
      item w [(n * ((3 - 2) / 1 + 1) + i) * ((3 - 2) / 1 + 1) + j; c; u; v]
      = item (arange [2; 3; 3; 3]) [n; c; i * 1 + u; j * 1 + v].
Proof.
  split; [reflexivity |]. repeat (split; [lia |]).
  apply (rank4_three_channels (arange [2; 3; 3; 3]) 2 3 3 2 2 1);
    [reflexivity | lia ..].
Defined.

(** C10: the stride is never checked for being positive.  On every supported
    array with a kernel that fits, a call with stride 0 gets past the
    argument check, normalizes the array and builds the windowed view, and
    fails only at the subsampling index, with the slicing [ValueError]; a call
    with a negative stride s raises nothing and returns the patches taken at
    window positions H-kH, H-kH-|s|, ... and W-kW, W-kW-|s|, ..., that is,
    from the last position backwards. *)
Theorem stride_not_validated {A : Type} {dtype : Dtype A}
        (arr arr4 : ndarray A) (N C H W kH kW : Z) :
  result (standardize arr) = inr (arr4, C) ->
  shape arr4 = [N; C; H; W] ->
  0 <= N -> 0 < C -> 0 < kH <= H -> 0 < kW <= W ->
  _sliding_window_snapshots arr (Some (kH, kW)) (Some 0)
  = (trace (standardize arr) ++ [SlidingWindowView; GetItem],
     inl (ValueError "slice step cannot be zero")) /\
  forall s, s < 0 ->
    exists w : Tensor A,
      result (windows_before_squeeze arr (Some (kH, kW)) (Some s)) = inr w /\
      result (_sliding_window_snapshots arr (Some (kH, kW)) (Some s))
      = inr (squeeze w) /\
      shape w = [N * ((H - kH) / (- s) + 1) * ((W - kW) / (- s) + 1);
                 C; kH; kW] /\
      forall n i j c u v,
        0 <= n < N ->
        0 <= i < (H - kH) / (- s) + 1 ->
        0 <= j < (W - kW) / (- s) + 1 ->
        0 <= c < C -> 0 <= u < kH -> 0 <= v < kW ->
        item w [(n * ((H - kH) / (- s) + 1) + i) * ((W - kW) / (- s) + 1) + j;
                c; u; v]
        = item arr4 [n; c; (H - kH) - i * (- s) + u;
                     (W - kW) - j * (- s) + v].
Proof.
  intros Hstd Hs HN HC HkH HkW. split.
  - assert (E : standardize arr = (trace (standardize arr), inr (arr4, C)))
      by (destruct (standardize arr) as [l r]; cbn in Hstd |- *;
          rewrite Hstd; reflexivity).
    unfold _sliding_window_snapshots, windows_before_squeeze.
    rewrite (bind_ok_eq _ _ _ _ E).
    rewrite (extract_zero_stride arr4 N C H W kH kW C) by (assumption || lia).
    reflexivity.
  - intros s Hneg.
    destruct (windows_before_squeeze_spec arr arr4 N C H W kH kW s)
      as (w & Hw & Hsq & Hshape & Hitem); [assumption || lia ..|].
    exists w. split; [exact Hw |]. split; [exact Hsq |]. split.
    + rewrite Hshape. rewrite !slice_len_window_neg by lia. reflexivity.
    + intros n i j c u v Hn Hi Hj Hc Hu Hv.
      pose proof (Hitem n i j c u v) as E.
      rewrite !slice_len_window_neg in E by lia.
      rewrite !slice_at_window_neg in E by lia.
      apply E; assumption.
Qed.

Lemma stride_not_validated_witness :
  result (standardize (arange [5; 5]))
  = inr (mk_ndarray [1; 1; 5; 5] (zrange 25), 1) /\
  shape (mk_ndarray [1; 1; 5; 5] (zrange 25)) = [1; 1; 5; 5] /\
  0 <= 1 /\ 0 < 1 /\ 0 < 2 <= 5 /\ 0 < 2 <= 5 /\
  (_sliding_window_snapshots (arange [5; 5]) (Some (2, 2)) (Some 0)
   = (trace (standardize (arange [5; 5])) ++ [SlidingWindowView; GetItem],
      inl (ValueError "slice step cannot be zero")) /\
   forall s, s < 0 ->
     exists w : Tensor Z,
       result (windows_before_squeeze (arange [5; 5]) (Some (2, 2)) (Some s))
       = inr w /\
       result (_sliding_window_snapshots (arange [5; 5]) (Some (2, 2)) (Some s))
       = inr (squeeze w) /\
       shape w = [1 * ((5 - 2) / (- s) + 1) * ((5 - 2) / (- s) + 1);
                  1; 2; 2] /\
       forall n i j c u v,
         0 <= n < 1 ->
         0 <= i < (5 - 2) / (- s) + 1 ->
         0 <= j < (5 - 2) / (- s) + 1 ->
         0 <= c < 1 -> 0 <= u < 2 -> 0 <= v < 2 ->
         item w [(n * ((5 - 2) / (- s) + 1) + i) * ((5 - 2) / (- s) + 1) + j;
                 c; u; v]
         = item (mk_ndarray [1; 1; 5; 5] (zrange 25))
                [n; c; (5 - 2) - i * (- s) + u; (5 - 2) - j * (- s) + v]).
Proof.
  split; [reflexivity |]. split; [reflexivity |].
  repeat (split; [lia |]).
  apply (stride_not_validated (arange [5; 5])
           (mk_ndarray [1; 1; 5; 5] (zrange 25)) 1 1 5 5 2 2);
    [reflexivity | reflexivity | lia ..].
Defined.

(** ** Rank-4 inputs whose channel count is not 3, and ranks above 4 *)

(** C1: the claim fails on a rank-4 input with 2 channels.  For the (1, 2, 1,
    3) array holding 0..5, kernel (1, 1) and stride 1, the claim asks for 3
    patches of 2 channels, [0,3], [1,4], [2,5]; the code, regrouping by its
    fixed C = 3, returns 2 patches of 3 entries, [0,3,1] and [4,2,5], which
    mix different window positions. *)
Theorem two_channel_batch_regrouped :
  result (windows_before_squeeze (arange [1; 2; 1; 3]) (Some (1, 1)) (Some 1))
  = inr (mk_ndarray [2; 3; 1; 1] [0; 3; 1; 4; 2; 5]) /\
  map (fun j => map (fun c => item (arange [1; 2; 1; 3]) [0; c; 0; j])
                    (zrange 2)) (zrange 3)
  = [[0; 3]; [1; 4]; [2; 5]].
Proof. split; vm_compute; reflexivity. Qed.

(** C2: the claim fails on a rank-4 input with 6 channels.  For the (2, 6, 2,
    2) array holding 0..47, kernel (2, 2) and stride 1, the formula gives
    2 * 1 * 1 = 2 patches (of shape (6, 2, 2)); the call returns a tensor of
    shape (4, 3, 2, 2), that is 4 patches of 3 channels, and no axis of
    extent 1 is involved, so the squeeze changes nothing. *)
Theorem six_channel_batch_count :
  _sliding_window_snapshots (arange [2; 6; 2; 2]) (Some (2, 2)) (Some 1)
  = ([Shape; Shape; SlidingWindowView; GetItem; Copy; FromNumpy],
     inr (mk_ndarray [4; 3; 2; 2] (zrange 48))) /\
  2 * ((2 - 2) / 1 + 1) * ((2 - 2) / 1 + 1) = 2 /\
  4 <> 2 * ((2 - 2) / 1 + 1) * ((2 - 2) / 1 + 1).
Proof.
  split; [vm_compute; reflexivity |]. split; [reflexivity |].
  vm_compute. discriminate.
Qed.

(** C3: on the rank-5 array of shape (1, 1, 1, 2, 2), kernel (1, 1), stride 1,
    the call does fail, but only at torch's [permute], whose error is a
    [RuntimeError] and not the [ValueError] that reports an unsupported
    dimensionality; the array has by then been windowed, indexed, copied and
    wrapped. *)
Theorem rank5_fails_in_permute :
  _sliding_window_snapshots (arange [1; 1; 1; 2; 2]) (Some (1, 1)) (Some 1)
  = ([Shape; Shape; SlidingWindowView; GetItem; Copy; FromNumpy],
     inl (RuntimeError
       "permute: number of dimensions in the tensor input does not match the length of the desired ordering of dimensions")) /\
  is_ValueError (RuntimeError
       "permute: number of dimensions in the tensor input does not match the length of the desired ordering of dimensions")
  = false.
Proof. split; vm_compute; reflexivity. Qed.

(** * Further behaviour of the extractor *)

(** ** Flat positions and multi-indices, the other way round *)

Lemma unravel_in_bounds (s : list Z) (k : Z) :
  nonneg s -> 0 <= k < prod s ->
  in_bounds s (unravel s k) /\ ravel s (unravel s k) = k.
Proof.
  intros Hs. revert k.
  induction Hs as [| d s Hd Hs IH]; intros k Hk.
  - cbn in *. split; [constructor | lia].
  - change (prod (d :: s)) with (d * prod s) in Hk.
    cbn [unravel ravel].
    assert (Hp : 0 < prod s).
    { pose proof (prod_nonneg s Hs).
      destruct (Z.eq_dec (prod s) 0) as [E | E]; [rewrite E in Hk; lia | lia]. }
    pose proof (Z.mod_pos_bound k (prod s) Hp) as Hm.
    destruct (IH (k mod prod s) Hm) as [Hb Hr].
    assert (Hq : 0 <= k / prod s < d).
    { split; [apply Z.div_pos; lia |].
      apply Z.div_lt_upper_bound; lia. }
    split.
    + constructor; assumption.
    + rewrite Hr. pose proof (Z.div_mod k (prod s)). lia.
Qed.

Section Extensionality.
Context {A : Type} {dtype : Dtype A}.

(** Two element lists of the length a shape asks for are equal as soon as
    they agree at every in-range index of that shape. *)
Lemma elems_ext (s : list Z) (l l' : list A) :
  nonneg s -> len l = prod s -> len l' = prod s ->
  (forall idx, in_bounds s idx ->
               item (mk_ndarray s l) idx = item (mk_ndarray s l') idx) ->
  l = l'.
Proof.
  intros Hs Hl Hl' Hitem. unfold len in *.
  apply (nth_ext l l' zero zero); [lia |].
  intros n Hn.
  destruct (unravel_in_bounds s (Z.of_nat n) Hs) as [Hb Hr]; [lia |].
  specialize (Hitem _ Hb). unfold item in Hitem. cbn [shape elems] in Hitem.
  rewrite Hr, Nat2Z.id in Hitem. exact Hitem.
Qed.

(** The leading extent of a shape plays no part in where an index lands. *)
Lemma item_leading_extent (d d' : Z) (s : list Z) (l : list A) (idx : list Z) :
  item (mk_ndarray (d :: s) l) idx = item (mk_ndarray (d' :: s) l) idx.
Proof. unfold item. cbn [shape elems]. destruct idx; reflexivity. Qed.

End Extensionality.

(** ** Shapes and element counts stay consistent *)

Lemma nonneg_nth (s : list Z) (n : nat) : nonneg s -> 0 <= nth n s 0.
Proof.
  intros Hs. revert n. induction Hs as [| d s Hd _ IH]; intros [| n]; cbn;
    try lia. apply IH.
Qed.

Lemma nonneg_app (s s' : list Z) : nonneg s -> nonneg s' -> nonneg (s ++ s').
Proof. unfold nonneg. intros. apply Forall_app. split; assumption. Qed.

Lemma nonneg_firstn (n : nat) (s : list Z) : nonneg s -> nonneg (firstn n s).
Proof.
  intros Hs. revert n. induction Hs as [| d s Hd _ IH]; intros [| n];
    cbn [firstn]; try (constructor; fail).
  constructor; [assumption | apply IH].
Qed.

Lemma prod_filter_ones (s : list Z) :
  prod (filter (fun d => negb (d =? 1)) s) = prod s.
Proof.
  induction s as [| d s IH]; [reflexivity |].
  cbn [filter]. destruct (d =? 1) eqn:E; cbn [negb].
  - apply Z.eqb_eq in E. subst d. rewrite IH.
    change (prod (1 :: s)) with (1 * prod s). lia.
  - change (prod (d :: filter (fun d0 => negb (d0 =? 1)) s))
      with (d * prod (filter (fun d0 => negb (d0 =? 1)) s)).
    rewrite IH. reflexivity.
Qed.

Lemma find_negative_none (s : list Z) :
  find (fun d => d <? 0) s = None -> nonneg s.
Proof.
  induction s as [| d s IH]; [constructor |].
  cbn [find]. destruct (d <? 0) eqn:E; [discriminate |].
  intros Hf. constructor; [apply Z.ltb_ge in E; exact E | apply IH, Hf].
Qed.

Section WellFormed.
Context {A : Type} {dtype : Dtype A}.

Lemma standardize_nonneg (arr arr' : ndarray A) (C : Z) :
  nonneg (shape arr) -> result (standardize arr) = inr (arr', C) ->
  nonneg (shape arr').
Proof.
  intros Hs. unfold standardize, get_shape, getitem_newaxis, getitem_newaxis2.
  cbn. destruct (len (shape arr) =? 3); cbn.
  - intros E. inversion E. cbn [shape]. constructor; [lia | exact Hs].
  - destruct (len (shape arr) =? 2); cbn; intros E; inversion E; subst.
    + cbn [shape]. constructor; [lia |]. constructor; [lia | exact Hs].
    + exact Hs.
Qed.

Lemma sliding_window_view_wf (x w : ndarray A) (k : Z * Z) :
  nonneg (shape x) -> result (sliding_window_view x k) = inr w -> wf w.
Proof.
  intros Hs. destruct k as [h w']. unfold sliding_window_view.
  destruct ((h <? 0) || (w' <? 0)) eqn:N; [discriminate |].
  destruct (len (shape x) <? 2); [discriminate |].
  destruct ((nth (length (shape x) - 2) (shape x) 0 <? h)
            || (nth (S (length (shape x) - 2)) (shape x) 0 <? w')) eqn:B;
    [discriminate |].
  cbn. intros E. inversion E.
  apply orb_false_iff in N as [N1 N2]. apply orb_false_iff in B as [B1 B2].
  apply Z.ltb_ge in N1, N2, B1, B2.
  apply wf_gather. apply nonneg_app; [apply nonneg_firstn, Hs |].
  repeat (constructor; [lia |]). constructor.
Qed.

Lemma getitem_stride_wf (x w : ndarray A) (step : Z) :
  nonneg (shape x) -> result (getitem_stride x step) = inr w -> wf w.
Proof.
  intros Hs. unfold getitem_stride.
  destruct (shape x) as [| d0 [| d1 [| d2 [| d3 [| d4 [| d5 rest]]]]]];
    try discriminate.
  destruct (step =? 0); [discriminate |].
  cbn. intros E. inversion E.
  apply wf_gather.
  inversion Hs as [| ? ? Hd0 Hs1]; subst.
  inversion Hs1 as [| ? ? Hd1 Hs2]; subst.
  inversion Hs2 as [| ? ? Hd2 Hs3]; subst.
  inversion Hs3 as [| ? ? Hd3 Hs4]; subst.
  repeat (constructor; [assumption || apply slice_len_nonneg |]).
  exact Hs4.
Qed.

Lemma permute_wf (t w : Tensor A) (dims : list nat) :
  nonneg (shape t) -> result (permute t dims) = inr w -> wf w.
Proof.
  intros Hs. unfold permute.
  destruct (Nat.eqb (length dims) (length (shape t))); [| discriminate].
  cbn. intros E. inversion E.
  apply wf_gather. unfold nonneg. apply Forall_map, Forall_forall.
  intros d _. apply nonneg_nth, Hs.
Qed.

Lemma reshape_infer_wf (t w : Tensor A) (rest : list Z) :
  wf t -> result (reshape_infer t rest) = inr w -> wf w.
Proof.
  intros [Hs Hl]. unfold reshape_infer.
  destruct (find (fun d => d <? 0) rest) eqn:F; [discriminate |].
  apply find_negative_none in F. pose proof (prod_nonneg rest F) as Hr.
  pose proof (prod_nonneg (shape t) Hs) as Hn.
  destruct ((prod (shape t) =? prod rest)
            || (0 <? prod rest) && (prod (shape t) mod prod rest =? 0)) eqn:Cnd;
    [| discriminate].
  destruct (prod rest =? 0) eqn:Z0; [discriminate |].
  apply Z.eqb_neq in Z0.
  cbn. intros E. inversion E.
  assert (Hdiv : prod (shape t) mod prod rest = 0).
  { apply orb_true_iff in Cnd as [Cnd | Cnd].
    - apply Z.eqb_eq in Cnd. rewrite Cnd. apply Z.mod_same. exact Z0.
    - apply andb_true_iff in Cnd as [_ Cnd]. apply Z.eqb_eq in Cnd. exact Cnd. }
  split; cbn [shape elems].
  - constructor; [apply Z.div_pos; lia | exact F].
  - rewrite Hl.
    change (prod (prod (shape t) / prod rest :: rest))
      with (prod (shape t) / prod rest * prod rest).
    pose proof (Z.div_mod (prod (shape t)) (prod rest) Z0). lia.
Qed.

Lemma squeeze_wf (t : Tensor A) : wf t -> wf (squeeze t).
Proof.
  intros [Hs Hl]. split; cbn [squeeze shape elems].
  - unfold nonneg in *. apply Forall_forall. intros d Hd.
    apply filter_In in Hd as [Hd _].
    rewrite Forall_forall in Hs. apply Hs, Hd.
  - rewrite prod_filter_ones. exact Hl.
Qed.

Lemma extract_wf (x : ndarray A) (C : Z) (k : Z * Z) (s : Z) (t : Tensor A) :
  nonneg (shape x) -> result (extract x C k s) = inr t -> wf t.
Proof.
  intros Hs. destruct k as [kH kW]. unfold extract. intros Hex.
  apply result_bind_inv in Hex as (w1 & H1 & Hex).
  apply result_bind_inv in Hex as (w2 & H2 & Hex).
  apply result_bind_inv in Hex as (w3 & H3 & Hex).
  apply result_bind_inv in Hex as (w4 & H4 & Hex).
  apply result_bind_inv in Hex as (w5 & H5 & Hex).
  apply copy_result in H3. apply from_numpy_result in H4. subst w4 w3.
  apply sliding_window_view_wf in H1; [| exact Hs].
  apply getitem_stride_wf in H2; [| apply H1].
  apply permute_wf in H5; [| apply H2].
  apply reshape_infer_wf in Hex; assumption.
Qed.

Lemma windows_before_squeeze_wf (arr : ndarray A) (kernel : option (Z * Z))
      (stride : option Z) (w : Tensor A) :
  nonneg (shape arr) ->
  result (windows_before_squeeze arr kernel stride) = inr w -> wf w.
Proof.
  intros Hs Hw.
  destruct kernel as [k |]; [| discriminate Hw].
  destruct stride as [s |]; [| discriminate Hw].
  unfold windows_before_squeeze in Hw.
  apply result_bind_inv in Hw as ([arr' C] & Hstd & Hex).
  apply (extract_wf arr' C k s); [| exact Hex].
  apply (standardize_nonneg arr arr' C Hs Hstd).
Qed.

End WellFormed.

(** X11: whenever the function returns, the tensor it returns is consistent:
    every extent is non-negative and the number of elements is the product of
    the extents (for an input whose extents are non-negative, as every numpy
    shape is). *)
Theorem returned_tensor_well_formed {A : Type} {dtype : Dtype A}
        (arr : ndarray A) (kernel : option (Z * Z)) (stride : option Z)
        (t : Tensor A) :
  nonneg (shape arr) ->
  result (_sliding_window_snapshots arr kernel stride) = inr t ->
  nonneg (shape t) /\ len (elems t) = prod (shape t).
Proof.
  intros Hs Hres. unfold _sliding_window_snapshots in Hres.
  apply result_bind_inv in Hres as (w & Hw & Ht).
  cbn in Ht. inversion Ht.
  apply squeeze_wf. apply (windows_before_squeeze_wf arr kernel stride w Hs Hw).
Qed.

Lemma returned_tensor_well_formed_witness :
  nonneg (shape (arange [4; 4])) /\
  result (_sliding_window_snapshots (arange [4; 4]) (Some (2, 2)) (Some 2))
  = inr (mk_ndarray [4; 2; 2]
           [0; 1; 4; 5; 2; 3; 6; 7; 8; 9; 12; 13; 10; 11; 14; 15]) /\
  nonneg [4; 2; 2] /\
  len [0; 1; 4; 5; 2; 3; 6; 7; 8; 9; 12; 13; 10; 11; 14; 15] = prod [4; 2; 2].
Proof.
  assert (Hs : nonneg (shape (arange [4; 4])))
    by (repeat (constructor; [lia |]); constructor).
  split; [exact Hs |]. split; [vm_compute; reflexivity |].
  apply (returned_tensor_well_formed (arange [4; 4]) (Some (2, 2)) (Some 2)
           (mk_ndarray [4; 2; 2]
              [0; 1; 4; 5; 2; 3; 6; 7; 8; 9; 12; 13; 10; 11; 14; 15]) Hs).
  vm_compute. reflexivity.
Defined.

(** ** Rank 2 and rank 3 inputs *)

(** X1: on a rank-2 input (H, W), with a kernel that fits and a positive
    stride s, the call returns; before the squeeze there are Hpos * Wpos
    single-channel patches, Hpos = floor((H-kH)/s)+1, Wpos =
    floor((W-kW)/s)+1, and the patch at flat position i * Wpos + j is the
    window arr[i*s : i*s+kH, j*s : j*s+kW]. *)
Theorem rank2_contract {A : Type} {dtype : Dtype A}
        (arr : ndarray A) (H W kH kW s : Z) :
  shape arr = [H; W] -> 0 < kH <= H -> 0 < kW <= W -> 0 < s ->
  exists w : Tensor A,
    result (windows_before_squeeze arr (Some (kH, kW)) (Some s)) = inr w /\
    result (_sliding_window_snapshots arr (Some (kH, kW)) (Some s))
    = inr (squeeze w) /\
    shape w = [((H - kH) / s + 1) * ((W - kW) / s + 1); 1; kH; kW] /\
    forall i j u v,
      0 <= i < (H - kH) / s + 1 -> 0 <= j < (W - kW) / s + 1 ->
      0 <= u < kH -> 0 <= v < kW ->
      item w [i * ((W - kW) / s + 1) + j; 0; u; v]
      = item arr [i * s + u; j * s + v].
Proof.
  intros Hs HkH HkW Hstep.
  destruct arr as [sh el]. cbn [shape] in Hs. subst sh.
  destruct (windows_before_squeeze_spec
              (mk_ndarray [H; W] el) (mk_ndarray [1; 1; H; W] el)
              1 1 H W kH kW s)
    as (w & Hw & Hsq & Hshape & Hitem);
    [rewrite standardize_rank2; reflexivity | reflexivity | lia .. |].
  exists w. split; [exact Hw |]. split; [exact Hsq |]. split.
  - rewrite Hshape. rewrite !slice_len_window_pos by lia.
    f_equal. lia.
  - intros i j u v Hi Hj Hu Hv.
    pose proof (Hitem 0 i j 0 u v) as E.
    rewrite !slice_len_window_pos, !slice_at_pos in E by lia.
    rewrite !item_newaxis in E.
    replace ((0 * ((H - kH) / s + 1) + i) * ((W - kW) / s + 1) + j)
      with (i * ((W - kW) / s + 1) + j) in E by ring.
    apply E; lia.
Qed.

Lemma rank2_contract_witness :
  shape (arange [5; 7]) = [5; 7] /\ 0 < 2 <= 5 /\ 0 < 3 <= 7 /\ 0 < 2 /\
  exists w : Tensor Z,
    result (windows_before_squeeze (arange [5; 7]) (Some (2, 3)) (Some 2))
    = inr w /\
    result (_sliding_window_snapshots (arange [5; 7]) (Some (2, 3)) (Some 2))
    = inr (squeeze w) /\
    shape w = [((5 - 2) / 2 + 1) * ((7 - 3) / 2 + 1); 1; 2; 3] /\
    forall i j u v,
      0 <= i < (5 - 2) / 2 + 1 -> 0 <= j < (7 - 3) / 2 + 1 ->
      0 <= u < 2 -> 0 <= v < 3 ->
      item w [i * ((7 - 3) / 2 + 1) + j; 0; u; v]
      = item (arange [5; 7]) [i * 2 + u; j * 2 + v].
Proof.
  split; [reflexivity |]. repeat (split; [lia |]).
  apply (rank2_contract (arange [5; 7]) 5 7 2 3 2); [reflexivity | lia ..].
Defined.

(** X2: on a rank-3 input (C, H, W) with at least one channel, a kernel that
    fits and a positive stride s, the call returns; before the squeeze there
    are Hpos * Wpos patches of shape (C, kH, kW), and the patch at flat
    position i * Wpos + j is the window arr[:, i*s : i*s+kH, j*s : j*s+kW]. *)
Theorem rank3_contract {A : Type} {dtype : Dtype A}
        (arr : ndarray A) (C H W kH kW s : Z) :
  shape arr = [C; H; W] -> 0 < C -> 0 < kH <= H -> 0 < kW <= W -> 0 < s ->
  exists w : Tensor A,
    result (windows_before_squeeze arr (Some (kH, kW)) (Some s)) = inr w /\
    result (_sliding_window_snapshots arr (Some (kH, kW)) (Some s))
    = inr (squeeze w) /\
    shape w = [((H - kH) / s + 1) * ((W - kW) / s + 1); C; kH; kW] /\
    forall i j c u v,
      0 <= i < (H - kH) / s + 1 -> 0 <= j < (W - kW) / s + 1 ->
      0 <= c < C -> 0 <= u < kH -> 0 <= v < kW ->
      item w [i * ((W - kW) / s + 1) + j; c; u; v]
      = item arr [c; i * s + u; j * s + v].
Proof.
  intros Hs HC HkH HkW Hstep.
  destruct arr as [sh el]. cbn [shape] in Hs. subst sh.
  destruct (windows_before_squeeze_spec
              (mk_ndarray [C; H; W] el) (mk_ndarray [1; C; H; W] el)
              1 C H W kH kW s)
    as (w & Hw & Hsq & Hshape & Hitem);
    [rewrite standardize_rank3; reflexivity | reflexivity | lia .. |].
  exists w. split; [exact Hw |]. split; [exact Hsq |]. split.
  - rewrite Hshape. rewrite !slice_len_window_pos by lia.
    f_equal. lia.
  - intros i j c u v Hi Hj Hc Hu Hv.
    pose proof (Hitem 0 i j c u v) as E.
    rewrite !slice_len_window_pos, !slice_at_pos in E by lia.
    rewrite item_newaxis in E.
    replace ((0 * ((H - kH) / s + 1) + i) * ((W - kW) / s + 1) + j)
      with (i * ((W - kW) / s + 1) + j) in E by ring.
    apply E; lia.
Qed.

Lemma rank3_contract_witness :
  shape (arange [2; 4; 4]) = [2; 4; 4] /\ 0 < 2 /\
  0 < 2 <= 4 /\ 0 < 2 <= 4 /\ 0 < 1 /\
  exists w : Tensor Z,
    result (windows_before_squeeze (arange [2; 4; 4]) (Some (2, 2)) (Some 1))
    = inr w /\
    result (_sliding_window_snapshots (arange [2; 4; 4]) (Some (2, 2)) (Some 1))
    = inr (squeeze w) /\
    shape w = [((4 - 2) / 1 + 1) * ((4 - 2) / 1 + 1); 2; 2; 2] /\
    forall i j c u v,
      0 <= i < (4 - 2) / 1 + 1 -> 0 <= j < (4 - 2) / 1 + 1 ->
      0 <= c < 2 -> 0 <= u < 2 -> 0 <= v < 2 ->
      item w [i * ((4 - 2) / 1 + 1) + j; c; u; v]
      = item (arange [2; 4; 4]) [c; i * 1 + u; j * 1 + v].
Proof.
  split; [reflexivity |]. repeat (split; [lia |]).
  apply (rank3_contract (arange [2; 4; 4]) 2 4 4 2 2 1); [reflexivity | lia ..].
Defined.

(** ** Special kernels and strides *)

Lemma slice_len_single (s : Z) : slice_len 1 s = 1.
Proof. unfold slice_len. cbn. reflexivity. Qed.

Lemma slice_at_single (s : Z) : slice_at 1 s 0 = 0.
Proof. unfold slice_at. destruct (0 <? s); reflexivity. Qed.

Lemma slice_len_minus_1 (n : Z) : 0 <= n -> slice_len n (-1) = n.
Proof.
  intros Hn. unfold slice_len. destruct (n <=? 0) eqn:E.
  - apply Z.leb_le in E. lia.
  - change (Z.abs (-1)) with 1. rewrite Z.div_1_r. lia.
Qed.

Lemma slice_at_minus_1 (n k : Z) : slice_at n (-1) k = n - 1 - k.
Proof. unfold slice_at. cbn. lia. Qed.

(** X9: a kernel as large as the whole image selects one window per sample,
    the sample itself: on a supported, well-formed array whose normalized
    form is (N, C, H, W), kernel (H, W) and any nonzero stride give back the
    normalized array unchanged (and the call returns it squeezed). *)
Theorem full_kernel_returns_input {A : Type} {dtype : Dtype A}
        (arr arr4 : ndarray A) (N C H W s : Z) :
  result (standardize arr) = inr (arr4, C) ->
  shape arr4 = [N; C; H; W] ->
  len (elems arr4) = N * C * H * W ->
  0 <= N -> 0 < C -> 0 < H -> 0 < W -> s <> 0 ->
  result (windows_before_squeeze arr (Some (H, W)) (Some s)) = inr arr4 /\
  result (_sliding_window_snapshots arr (Some (H, W)) (Some s))
  = inr (squeeze arr4).
Proof.
  intros Hstd Hs Hlen HN HC HH HW Hstep.
  destruct arr4 as [sh4 el4]. cbn [shape elems] in Hs, Hlen. subst sh4.
  destruct (windows_before_squeeze_spec arr (mk_ndarray [N; C; H; W] el4)
              N C H W H W s)
    as (w & Hw & Hsq & Hshape & Hitem);
    [exact Hstd | reflexivity | lia ..|].
  assert (Hwf : wf w).
  { pose proof Hw as Hw'. unfold windows_before_squeeze in Hw'.
    rewrite (result_bind_ok _ _ _ Hstd) in Hw'.
    apply extract_wf in Hw'; [exact Hw' |].
    cbn [shape]. repeat (constructor; [lia |]). constructor. }
  replace (H - H + 1) with 1 in * by lia.
  replace (W - W + 1) with 1 in * by lia.
  rewrite !slice_len_single in *.
  assert (Ew : w = mk_ndarray [N; C; H; W] el4).
  { destruct w as [ws wl]. cbn [shape elems] in *. subst ws.
    destruct Hwf as [_ Hl]. cbn [shape elems] in Hl.
    f_equal; [f_equal; lia |].
    apply (elems_ext [N; C; H; W]).
    - repeat (constructor; [lia |]). constructor.
    - rewrite Hl. cbn [prod fold_right]. lia.
    - rewrite Hlen. cbn [prod fold_right]. lia.
    - intros idx Hb.
      inversion Hb as [| ? n ? r1 Hn Hb1]; subst.
      inversion Hb1 as [| ? c ? r2 Hc Hb2]; subst.
      inversion Hb2 as [| ? u ? r3 Hu Hb3]; subst.
      inversion Hb3 as [| ? v ? r4 Hv Hb4]; subst.
      inversion Hb4; subst.
      pose proof (Hitem n 0 0 c u v) as E.
      rewrite !slice_at_single in E.
      replace ((n * 1 + 0) * 1 + 0) with n in E by lia.
      rewrite (item_leading_extent N (N * 1 * 1)).
      rewrite E by lia. reflexivity. }
  subst w. split; assumption.
Qed.

Lemma full_kernel_returns_input_witness :
  result (standardize (arange [2; 3; 2]))
  = inr (mk_ndarray [1; 2; 3; 2] (zrange 12), 2) /\
  shape (mk_ndarray [1; 2; 3; 2] (zrange 12)) = [1; 2; 3; 2] /\
  len (elems (mk_ndarray [1; 2; 3; 2] (zrange 12))) = 1 * 2 * 3 * 2 /\
  0 <= 1 /\ 0 < 2 /\ 0 < 3 /\ 0 < 2 /\ -1 <> 0 /\
  result (windows_before_squeeze (arange [2; 3; 2]) (Some (3, 2)) (Some (-1)))
  = inr (mk_ndarray [1; 2; 3; 2] (zrange 12)) /\
  result (_sliding_window_snapshots (arange [2; 3; 2]) (Some (3, 2))
                                    (Some (-1)))
  = inr (squeeze (mk_ndarray [1; 2; 3; 2] (zrange 12))).
Proof.
  split; [reflexivity |]. split; [reflexivity |]. split; [reflexivity |].
  repeat (split; [lia |]).
  apply (full_kernel_returns_input (arange [2; 3; 2])
           (mk_ndarray [1; 2; 3; 2] (zrange 12)) 1 2 3 2 (-1));
    [reflexivity | reflexivity | reflexivity | lia ..].
Defined.

(** X10: with kernel (1, 1) and stride 1 a well-formed, non-empty rank-2
    image is flattened: there is one patch per element, in row-major order,
    so the returned tensor is the vector of the image's H*W elements (a scalar
    tensor for a 1x1 image). *)
Theorem unit_kernel_flattens_image {A : Type} {dtype : Dtype A}
        (H W : Z) (el : list A) :
  0 < H -> 0 < W -> len el = H * W ->
  result (windows_before_squeeze (mk_ndarray [H; W] el) (Some (1, 1)) (Some 1))
  = inr (mk_ndarray [H * W; 1; 1; 1] el) /\
  result (_sliding_window_snapshots (mk_ndarray [H; W] el) (Some (1, 1))
                                    (Some 1))
  = inr (mk_ndarray (if H * W =? 1 then [] else [H * W]) el).
Proof.
  intros HH HW Hlen.
  destruct (windows_before_squeeze_spec
              (mk_ndarray [H; W] el) (mk_ndarray [1; 1; H; W] el)
              1 1 H W 1 1 1)
    as (w & Hw & Hsq & Hshape & Hitem);
    [rewrite standardize_rank2; reflexivity | reflexivity | lia .. |].
  assert (Hwf : wf w).
  { pose proof Hw as Hw'. apply windows_before_squeeze_wf in Hw'; [exact Hw' |].
    cbn [shape]. repeat (constructor; [lia |]). constructor. }
  replace (H - 1 + 1) with H in * by lia.
  replace (W - 1 + 1) with W in * by lia.
  rewrite !slice_len_1 in * by lia.
  assert (Ew : w = mk_ndarray [H * W; 1; 1; 1] el).
  { destruct w as [ws wl]. cbn [shape elems] in *. subst ws.
    destruct Hwf as [_ Hl]. cbn [shape elems] in Hl.
    f_equal; [f_equal; lia |].
    apply (elems_ext [H; W]).
    - repeat (constructor; [lia |]). constructor.
    - rewrite Hl. cbn [prod fold_right]. lia.
    - rewrite Hlen. cbn [prod fold_right]. lia.
    - intros idx Hb.
      inversion Hb as [| ? i ? r1 Hi Hb1]; subst.
      inversion Hb1 as [| ? j ? r2 Hj Hb2]; subst.
      inversion Hb2; subst.
      pose proof (Hitem 0 i j 0 0 0) as E.
      rewrite !slice_at_1 in E.
      transitivity (item (mk_ndarray [1 * H * W; 1; 1; 1] wl)
                         [(0 * H + i) * W + j; 0; 0; 0]).
      { apply item_same_flat; [reflexivity |].
        cbn [shape ravel prod fold_right]. lia. }
      rewrite E by lia.
      apply item_same_flat; [reflexivity |].
      cbn [shape ravel prod fold_right]. lia. }
  subst w. split; [exact Hw |].
  rewrite Hsq. unfold squeeze. cbn [shape elems filter].
  change (1 =? 1) with true. cbn [negb].
  destruct (H * W =? 1); reflexivity.
Qed.

Lemma unit_kernel_flattens_image_witness :
  0 < 2 /\ 0 < 3 /\ len [10; 20; 30; 40; 50; 60] = 2 * 3 /\
  result (windows_before_squeeze (mk_ndarray [2; 3] [10; 20; 30; 40; 50; 60])
                                 (Some (1, 1)) (Some 1))
  = inr (mk_ndarray [2 * 3; 1; 1; 1] [10; 20; 30; 40; 50; 60]) /\
  result (_sliding_window_snapshots
            (mk_ndarray [2; 3] [10; 20; 30; 40; 50; 60]) (Some (1, 1)) (Some 1))
  = inr (mk_ndarray (if 2 * 3 =? 1 then [] else [2 * 3])
                    [10; 20; 30; 40; 50; 60]).
Proof.
  split; [lia |]. split; [lia |]. split; [reflexivity |].
  apply (unit_kernel_flattens_image 2 3 [10; 20; 30; 40; 50; 60]);
    [lia | lia | reflexivity].
Defined.

(** X12: stride -1 yields exactly the stride-1 patches with both position
    axes reversed: on a supported array with a kernel that fits, the two
    calls return tensors of the same shape, and patch (n, i, j) for stride -1
    is patch (n, Hpos-1-i, Wpos-1-j) for stride 1, where Hpos = H-kH+1 and
    Wpos = W-kW+1. *)
Theorem stride_minus_one_reverses {A : Type} {dtype : Dtype A}
        (arr arr4 : ndarray A) (N C H W kH kW : Z) :
  result (standardize arr) = inr (arr4, C) ->
  shape arr4 = [N; C; H; W] ->
  0 <= N -> 0 < C -> 0 < kH <= H -> 0 < kW <= W ->
  exists w1 wr : Tensor A,
    result (windows_before_squeeze arr (Some (kH, kW)) (Some 1)) = inr w1 /\
    result (windows_before_squeeze arr (Some (kH, kW)) (Some (-1))) = inr wr /\
    shape w1 = [N * (H - kH + 1) * (W - kW + 1); C; kH; kW] /\
    shape wr = shape w1 /\
    forall n i j c u v,
      0 <= n < N -> 0 <= i < H - kH + 1 -> 0 <= j < W - kW + 1 ->
      0 <= c < C -> 0 <= u < kH -> 0 <= v < kW ->
      item wr [(n * (H - kH + 1) + i) * (W - kW + 1) + j; c; u; v]
      = item w1 [(n * (H - kH + 1) + (H - kH + 1 - 1 - i)) * (W - kW + 1)
                 + (W - kW + 1 - 1 - j); c; u; v].
Proof.
  intros Hstd Hs HN HC HkH HkW.
  destruct (windows_before_squeeze_spec arr arr4 N C H W kH kW 1)
    as (w1 & Hwf & _ & Hsf & Hif); [assumption || lia ..|].
  destruct (windows_before_squeeze_spec arr arr4 N C H W kH kW (-1))
    as (wr & Hwr & _ & Hsr & Hir); [assumption || lia ..|].
  rewrite !slice_len_1 in * by lia.
  rewrite !slice_len_minus_1 in * by lia.
  exists w1, wr. repeat (split; [assumption || congruence |]).
  intros n i j c u v Hn Hi Hj Hc Hu Hv.
  rewrite (Hir n i j c u v) by lia.
  rewrite (Hif n (H - kH + 1 - 1 - i) (W - kW + 1 - 1 - j) c u v) by lia.
  rewrite !slice_at_1, !slice_at_minus_1. reflexivity.
Qed.

Lemma stride_minus_one_reverses_witness :
  result (standardize (arange [5; 5]))
  = inr (mk_ndarray [1; 1; 5; 5] (zrange 25), 1) /\
  shape (mk_ndarray [1; 1; 5; 5] (zrange 25)) = [1; 1; 5; 5] /\
  0 <= 1 /\ 0 < 1 /\ 0 < 2 <= 5 /\ 0 < 2 <= 5 /\
  exists w1 wr : Tensor Z,
    result (windows_before_squeeze (arange [5; 5]) (Some (2, 2)) (Some 1))
    = inr w1 /\
    result (windows_before_squeeze (arange [5; 5]) (Some (2, 2)) (Some (-1)))
    = inr wr /\
    shape w1 = [1 * (5 - 2 + 1) * (5 - 2 + 1); 1; 2; 2] /\
    shape wr = shape w1 /\
    forall n i j c u v,
      0 <= n < 1 -> 0 <= i < 5 - 2 + 1 -> 0 <= j < 5 - 2 + 1 ->
      0 <= c < 1 -> 0 <= u < 2 -> 0 <= v < 2 ->
      item wr [(n * (5 - 2 + 1) + i) * (5 - 2 + 1) + j; c; u; v]
      = item w1 [(n * (5 - 2 + 1) + (5 - 2 + 1 - 1 - i)) * (5 - 2 + 1)
                 + (5 - 2 + 1 - 1 - j); c; u; v].
Proof.
  split; [reflexivity |]. split; [reflexivity |].
  repeat (split; [lia |]).
  apply (stride_minus_one_reverses (arange [5; 5])
           (mk_ndarray [1; 1; 5; 5] (zrange 25)) 1 1 5 5 2 2);
    [reflexivity | reflexivity | lia ..].
Defined.

(** ** Inputs the function rejects *)

Section Rejections.
Context {A : Type} {dtype : Dtype A}.

(** Normalization itself never raises. *)
Lemma standardize_total (arr : ndarray A) :
  exists l arr' C, standardize arr = (l, inr (arr', C)).
Proof.
  unfold standardize, get_shape, getitem_newaxis, getitem_newaxis2. cbn.
  destruct (len (shape arr) =? 3); cbn; [do 3 eexists; reflexivity |].
  destruct (len (shape arr) =? 2); cbn; do 3 eexists; reflexivity.
Qed.

Lemma sliding_window_view_negative (x : ndarray A) (kH kW : Z) :
  kH < 0 \/ kW < 0 ->
  sliding_window_view x (kH, kW) =
  ([SlidingWindowView],
   inl (ValueError "`window_shape` cannot contain negative values")).
Proof.
  intros Hneg. unfold sliding_window_view.
  assert (N : (kH <? 0) || (kW <? 0) = true).
  { apply orb_true_iff. destruct Hneg; [left | right]; apply Z.ltb_lt; lia. }
  rewrite N. reflexivity.
Qed.

Lemma sliding_window_view_any_rank (x : ndarray A) (lead : list Z)
      (H W kH kW : Z) :
  shape x = lead ++ [H; W] -> 0 <= kH <= H -> 0 <= kW <= W ->
  exists w, sliding_window_view x (kH, kW) = ([SlidingWindowView], inr w) /\
            length (shape w) = (length (shape x) + 2)%nat.
Proof.
  intros Hs HkH HkW. unfold sliding_window_view.
  assert (N : (kH <? 0) || (kW <? 0) = false)
    by (apply orb_false_iff; split; apply Z.ltb_ge; lia).
  destruct (nth_last_two lead H W) as [EH EW].
  rewrite N, Hs, EH, EW.
  assert (L : (len (lead ++ [H; W]) <? 2) = false).
  { apply Z.ltb_ge. unfold len. rewrite length_app. cbn [length]. lia. }
  assert (B : (H <? kH) || (W <? kW) = false)
    by (apply orb_false_iff; split; apply Z.ltb_ge; lia).
  rewrite L, B. eexists. split; [reflexivity |].
  cbn [gather shape]. rewrite !length_app, length_firstn, length_app.
  cbn [length]. lia.
Qed.

Lemma getitem_stride_succeeds (x : ndarray A) (step : Z) :
  (6 <= length (shape x))%nat -> step <> 0 ->
  exists w, getitem_stride x step = ([GetItem], inr w) /\
            length (shape w) = length (shape x).
Proof.
  intros Hl Hstep. unfold getitem_stride.
  destruct (shape x) as [| d0 [| d1 [| d2 [| d3 [| d4 [| d5 rest]]]]]];
    cbn [length] in Hl; try lia.
  destruct (step =? 0) eqn:E; [apply Z.eqb_eq in E; lia |].
  eexists. split; reflexivity.
Qed.

Lemma permute_rank_mismatch (t : Tensor A) (dims : list nat) :
  length dims <> length (shape t) ->
  permute t dims =
  ([], inl (RuntimeError
     "permute: number of dimensions in the tensor input does not match the length of the desired ordering of dimensions")).
Proof.
  intros Hne. unfold permute.
  destruct (Nat.eqb (length dims) (length (shape t))) eqn:E;
    [apply Nat.eqb_eq in E; contradiction | reflexivity].
Qed.

End Rejections.

(** X5: every input of rank 5 or more, with a kernel that fits its last two
    axes and a nonzero stride, is windowed, indexed, copied and handed to
    torch, and only then rejected: the call ends in the [RuntimeError] of
    [permute], whatever the array holds. *)
Theorem rank_above_4_fails_in_permute {A : Type} {dtype : Dtype A}
        (arr : ndarray A) (lead : list Z) (H W kH kW s : Z) :
  shape arr = lead ++ [H; W] -> (3 <= length lead)%nat ->
  0 <= kH <= H -> 0 <= kW <= W -> s <> 0 ->
  _sliding_window_snapshots arr (Some (kH, kW)) (Some s)
  = ([Shape; Shape; SlidingWindowView; GetItem; Copy; FromNumpy],
     inl (RuntimeError
       "permute: number of dimensions in the tensor input does not match the length of the desired ordering of dimensions")).
Proof.
  intros Hs Hlead HkH HkW Hstep.
  assert (Hlen : length (shape arr) = (length lead + 2)%nat)
    by (rewrite Hs, length_app; reflexivity).
  destruct (sliding_window_view_any_rank arr lead H W kH kW Hs HkH HkW)
    as (w1 & E1 & L1).
  destruct (getitem_stride_succeeds w1 s) as (w2 & E2 & L2); [lia | exact Hstep |].
  assert (E3 : permute w2 [0; 2; 3; 1; 4; 5]%nat
               = ([], inl (RuntimeError
     "permute: number of dimensions in the tensor input does not match the length of the desired ordering of dimensions")))
    by (apply permute_rank_mismatch; cbn [length]; lia).
  assert (Eex : extract arr 3 (kH, kW) s
                = ([SlidingWindowView; GetItem; Copy; FromNumpy],
                   inl (RuntimeError
     "permute: number of dimensions in the tensor input does not match the length of the desired ordering of dimensions"))).
  { unfold extract.
    rewrite (bind_ok_eq _ _ _ _ E1), (bind_ok_eq _ _ _ _ E2).
    rewrite (bind_ok_eq (copy w2) _ [Copy] w2 eq_refl).
    rewrite (bind_ok_eq (from_numpy w2) _ [FromNumpy] w2 eq_refl).
    rewrite E3. reflexivity. }
  unfold _sliding_window_snapshots, windows_before_squeeze.
  rewrite (bind_ok_eq _ _ _ _ (standardize_other arr
             ltac:(unfold len; lia) ltac:(unfold len; lia))).
  rewrite Eex. reflexivity.
Qed.

Lemma rank_above_4_fails_in_permute_witness :
  shape (arange [2; 1; 3; 4; 4]) = [2; 1; 3] ++ [4; 4] /\
  (3 <= length [2; 1; 3])%nat /\ 0 <= 2 <= 4 /\ 0 <= 2 <= 4 /\ 2 <> 0 /\
  _sliding_window_snapshots (arange [2; 1; 3; 4; 4]) (Some (2, 2)) (Some 2)
  = ([Shape; Shape; SlidingWindowView; GetItem; Copy; FromNumpy],
     inl (RuntimeError
       "permute: number of dimensions in the tensor input does not match the length of the desired ordering of dimensions")).
Proof.
  split; [reflexivity |]. split; [cbn; lia |]. repeat (split; [lia |]).
  apply (rank_above_4_fails_in_permute (arange [2; 1; 3; 4; 4]) [2; 1; 3]
           4 4 2 2 2); [reflexivity | cbn; lia | lia ..].
Defined.

(** X6: a kernel with a negative entry is rejected by the windowing primitive
    with its [ValueError], for every array (of any rank and content) and every
    stride; nothing after the windowing call touches an array. *)
Theorem negative_kernel_rejected {A : Type} {dtype : Dtype A}
        (arr : ndarray A) (kH kW s : Z) :
  kH < 0 \/ kW < 0 ->
  result (_sliding_window_snapshots arr (Some (kH, kW)) (Some s))
  = inl (ValueError "`window_shape` cannot contain negative values") /\
  last (trace (_sliding_window_snapshots arr (Some (kH, kW)) (Some s))) Shape
  = SlidingWindowView.
Proof.
  intros Hneg.
  destruct (standardize_total arr) as (l & arr' & C & Hstd).
  assert (E : _sliding_window_snapshots arr (Some (kH, kW)) (Some s)
              = (l ++ [SlidingWindowView],
                 inl (ValueError
                        "`window_shape` cannot contain negative values"))).
  { unfold _sliding_window_snapshots, windows_before_squeeze.
    rewrite (bind_ok_eq _ _ l (arr', C) Hstd).
    unfold extract. rewrite (sliding_window_view_negative arr' kH kW Hneg).
    reflexivity. }
  rewrite E. split; [reflexivity |]. cbn [trace fst]. apply last_last.
Qed.

Lemma negative_kernel_rejected_witness :
  (-1 < 0 \/ 2 < 0) /\
  result (_sliding_window_snapshots (arange [4; 4]) (Some (-1, 2)) (Some 1))
  = inl (ValueError "`window_shape` cannot contain negative values") /\
  last (trace (_sliding_window_snapshots (arange [4; 4]) (Some (-1, 2))
                                         (Some 1))) Shape
  = SlidingWindowView.
Proof.
  split; [left; lia |].
  apply (negative_kernel_rejected (arange [4; 4]) (-1) 2 1). left. lia.
Defined.

(** ** The final regrouping *)

Section Regrouping.
Context {A : Type} {dtype : Dtype A}.

(** On a four-axis array, a kernel that fits and a nonzero step, everything
    up to [permute] succeeds; what the call does is decided by the reshape of
    a tensor of shape (N, Hpos, Wpos, C', kH, kW). *)
Lemma extract_reduces (x : ndarray A) (N C' H W kH kW s C : Z) :
  shape x = [N; C'; H; W] -> 0 <= kH <= H -> 0 <= kW <= W -> s <> 0 ->
  exists w3 : Tensor A,
    shape w3 = [N; slice_len (H - kH + 1) s; slice_len (W - kW + 1) s;
                C'; kH; kW] /\
    result (extract x C (kH, kW) s) = result (reshape_infer w3 [C; kH; kW]).
Proof.
  intros Hs HkH HkW Hstep.
  pose proof (sliding_window_view_ok x N C' H W kH kW Hs HkH HkW) as E1.
  set (w1 := gather [N; C'; H - (kH - 1); W - (kW - 1); kH; kW]
                    (window_index 2) x) in E1.
  destruct (getitem_stride_succeeds w1 s) as (w2 & E2 & _);
    [cbn; lia | exact Hstep |].
  pose proof (getitem_stride_ok w1 N C' (H - (kH - 1)) (W - (kW - 1)) kH kW s
                eq_refl Hstep) as E2'.
  rewrite E2 in E2'. cbn [result snd] in E2'. inversion E2' as [Ew2].
  clear E2'.
  eexists. split.
  2:{ unfold extract.
      rewrite (result_bind_ok _ _ w1) by (rewrite E1; reflexivity).
      rewrite (result_bind_ok _ _ w2) by (rewrite E2; reflexivity).
      rewrite (result_bind_ok _ _ w2) by reflexivity.
      rewrite (result_bind_ok _ _ w2) by reflexivity.
      rewrite (result_bind_ok _ _ _ (permute_ok w2 _ _ _ _ _ _
                 ltac:(rewrite Ew2; reflexivity))).
      reflexivity. }
  cbn [gather shape].
  replace (H - (kH - 1)) with (H - kH + 1) by lia.
  replace (W - (kW - 1)) with (W - kW + 1) by lia.
  reflexivity.
Qed.

End Regrouping.

(** X7: a patch shape without elements is rejected at the very end.  On a
    supported array (normalized to (N, C, H, W), C >= 0), with a nonzero
    stride and a kernel that fits, if C * kH * kW = 0 (a zero kernel entry, or
    a rank-3 input with no channels) the reshape raises torch's
    [RuntimeError] about an ambiguous -1. *)
Theorem empty_patch_shape_rejected {A : Type} {dtype : Dtype A}
        (arr arr4 : ndarray A) (N C H W kH kW s : Z) :
  result (standardize arr) = inr (arr4, C) ->
  shape arr4 = [N; C; H; W] ->
  0 <= C -> 0 <= kH <= H -> 0 <= kW <= W -> s <> 0 ->
  C * kH * kW = 0 ->
  result (_sliding_window_snapshots arr (Some (kH, kW)) (Some s))
  = inl (RuntimeError
      "cannot reshape tensor of 0 elements: the unspecified dimension size -1 can be any value and is ambiguous").
Proof.
  intros Hstd Hs HC HkH HkW Hstep Hzero.
  destruct (extract_reduces arr4 N C H W kH kW s C Hs HkH HkW Hstep)
    as (w3 & Hs3 & Hex).
  unfold _sliding_window_snapshots. apply result_bind_err.
  unfold windows_before_squeeze.
  rewrite (result_bind_ok _ _ _ Hstd), Hex.
  unfold reshape_infer. rewrite Hs3.
  assert (F : find (fun d => d <? 0) [C; kH; kW] = None).
  { cbn. destruct (C <? 0) eqn:E1; [apply Z.ltb_lt in E1; lia |].
    destruct (kH <? 0) eqn:E2; [apply Z.ltb_lt in E2; lia |].
    destruct (kW <? 0) eqn:E3; [apply Z.ltb_lt in E3; lia |]. reflexivity. }
  assert (P0 : prod [C; kH; kW] = 0) by (cbn [prod fold_right]; lia).
  assert (N0 : prod [N; slice_len (H - kH + 1) s; slice_len (W - kW + 1) s;
                     C; kH; kW] = 0).
  { cbn [prod fold_right].
    replace (C * (kH * (kW * 1))) with (C * kH * kW) by ring.
    rewrite Hzero. ring. }
  rewrite F, P0, N0. reflexivity.
Qed.

Lemma empty_patch_shape_rejected_witness :
  result (standardize (arange [4; 4]))
  = inr (mk_ndarray [1; 1; 4; 4] (zrange 16), 1) /\
  shape (mk_ndarray [1; 1; 4; 4] (zrange 16)) = [1; 1; 4; 4] /\
  0 <= 1 /\ 0 <= 0 <= 4 /\ 0 <= 2 <= 4 /\ 1 <> 0 /\ 1 * 0 * 2 = 0 /\
  result (_sliding_window_snapshots (arange [4; 4]) (Some (0, 2)) (Some 1))
  = inl (RuntimeError
      "cannot reshape tensor of 0 elements: the unspecified dimension size -1 can be any value and is ambiguous").
Proof.
  split; [reflexivity |]. split; [reflexivity |].
  repeat (split; [lia |]).
  apply (empty_patch_shape_rejected (arange [4; 4])
           (mk_ndarray [1; 1; 4; 4] (zrange 16)) 1 1 4 4 0 2 1);
    [reflexivity | reflexivity | lia ..].
Defined.

(** X8: a rank-4 input is always regrouped in threes, whatever its channel
    count C.  With a kernel that fits and a positive stride, let Q = N *
    Hpos * Wpos * C be the number of single-channel windows: if 3 divides Q
    the call returns Q / 3 patches of shape (3, kH, kW); otherwise the
    reshape raises a [RuntimeError]. *)
Theorem rank4_regroups_in_threes {A : Type} {dtype : Dtype A}
        (arr : ndarray A) (N C H W kH kW s : Z) :
  shape arr = [N; C; H; W] ->
  0 < kH <= H -> 0 < kW <= W -> 0 < s ->
  ((N * ((H - kH) / s + 1) * ((W - kW) / s + 1) * C) mod 3 = 0 ->
   exists w : Tensor A,
     result (windows_before_squeeze arr (Some (kH, kW)) (Some s)) = inr w /\
     result (_sliding_window_snapshots arr (Some (kH, kW)) (Some s))
     = inr (squeeze w) /\
     shape w = [N * ((H - kH) / s + 1) * ((W - kW) / s + 1) * C / 3;
                3; kH; kW]) /\
  ((N * ((H - kH) / s + 1) * ((W - kW) / s + 1) * C) mod 3 <> 0 ->
   result (_sliding_window_snapshots arr (Some (kH, kW)) (Some s))
   = inl (RuntimeError "shape is invalid for input size")).
Proof.
  intros Hs HkH HkW Hstep.
  destruct (extract_reduces arr N C H W kH kW s 3 Hs) as (w3 & Hs3 & Hex);
    [lia .. |].
  rewrite !slice_len_window_pos in Hs3 by lia.
  set (Q := N * ((H - kH) / s + 1) * ((W - kW) / s + 1) * C).
  assert (Hstd : result (standardize arr) = inr (arr, 3)).
  { destruct arr as [sh el]. cbn [shape] in Hs. subst sh.
    rewrite standardize_rank4. reflexivity. }
  assert (Hwbs : result (windows_before_squeeze arr (Some (kH, kW)) (Some s))
                 = result (reshape_infer w3 [3; kH; kW])).
  { unfold windows_before_squeeze.
    rewrite (result_bind_ok _ _ _ Hstd). exact Hex. }
  assert (HK : 0 < kH * kW) by (apply Z.mul_pos_pos; lia).
  assert (F : find (fun d => d <? 0) [3; kH; kW] = None).
  { cbn. destruct (kH <? 0) eqn:E2; [apply Z.ltb_lt in E2; lia |].
    destruct (kW <? 0) eqn:E3; [apply Z.ltb_lt in E3; lia |]. reflexivity. }
  assert (Pn : prod (shape w3) = Q * (kH * kW))
    by (rewrite Hs3; cbn [prod fold_right]; subst Q; ring).
  assert (Pr : prod [3; kH; kW] = 3 * (kH * kW))
    by (cbn [prod fold_right]; ring).
  assert (Hmod : (Q * (kH * kW)) mod (3 * (kH * kW)) = Q mod 3 * (kH * kW))
    by (apply Z.mul_mod_distr_r; lia).
  assert (Z0 : (3 * (kH * kW) =? 0) = false) by (apply Z.eqb_neq; lia).
  assert (P0 : (0 <? 3 * (kH * kW)) = true) by (apply Z.ltb_lt; lia).
  unfold reshape_infer in Hwbs. rewrite F, Pn, Pr, Hmod, Z0, P0 in Hwbs.
  cbn [andb] in Hwbs.
  split; intros HQ.
  - rewrite HQ, Z.mul_0_l in Hwbs.
    change (0 =? 0) with true in Hwbs. rewrite orb_true_r in Hwbs.
    rewrite Z.div_mul_cancel_r in Hwbs by lia.
    eexists. split; [exact Hwbs |]. split; [| reflexivity].
    unfold _sliding_window_snapshots.
    rewrite (result_bind_ok _ _ _ Hwbs). reflexivity.
  - assert (E1 : (Q * (kH * kW) =? 3 * (kH * kW)) = false).
    { apply Z.eqb_neq. intros E.
      assert (HQ3 : Q = 3) by nia.
      rewrite HQ3 in HQ. apply HQ. reflexivity. }
    assert (E2 : (Q mod 3 * (kH * kW) =? 0) = false).
    { apply Z.eqb_neq. intros E. apply Z.mul_eq_0 in E. lia. }
    rewrite E1, E2 in Hwbs. cbn [orb] in Hwbs.
    unfold _sliding_window_snapshots. apply result_bind_err. exact Hwbs.
Qed.

Lemma rank4_regroups_in_threes_witness :
  shape (arange [3; 1; 2; 2]) = [3; 1; 2; 2] /\
  0 < 2 <= 2 /\ 0 < 2 <= 2 /\ 0 < 1 /\
  ((3 * ((2 - 2) / 1 + 1) * ((2 - 2) / 1 + 1) * 1) mod 3 = 0 ->
   exists w : Tensor Z,
     result (windows_before_squeeze (arange [3; 1; 2; 2]) (Some (2, 2))
                                    (Some 1)) = inr w /\
     result (_sliding_window_snapshots (arange [3; 1; 2; 2]) (Some (2, 2))
                                       (Some 1))
     = inr (squeeze w) /\
     shape w = [3 * ((2 - 2) / 1 + 1) * ((2 - 2) / 1 + 1) * 1 / 3; 3; 2; 2]) /\
  ((3 * ((2 - 2) / 1 + 1) * ((2 - 2) / 1 + 1) * 1) mod 3 <> 0 ->
   result (_sliding_window_snapshots (arange [3; 1; 2; 2]) (Some (2, 2))
                                     (Some 1))
   = inl (RuntimeError "shape is invalid for input size")).
Proof.
  split; [reflexivity |]. repeat (split; [lia |]).
  apply (rank4_regroups_in_threes (arange [3; 1; 2; 2]) 3 1 2 2 2 2 1);
    [reflexivity | lia ..].
Defined.

Lemma returns_only_on_supported_rank_witness :
  result (_sliding_window_snapshots (arange [2; 3; 3; 3]) (Some (2, 2))
                                    (Some 1))
  = inr (squeeze (mk_ndarray [8; 3; 2; 2]
      [0; 1; 3; 4; 9; 10; 12; 13; 18; 19; 21; 22; 1; 2; 4; 5; 10; 11; 13;
       14; 19; 20; 22; 23; 3; 4; 6; 7; 12; 13; 15; 16; 21; 22; 24; 25; 4; 5;
       7; 8; 13; 14; 16; 17; 22; 23; 25; 26; 27; 28; 30; 31; 36; 37; 39; 40;
       45; 46; 48; 49; 28; 29; 31; 32; 37; 38; 40; 41; 46; 47; 49; 50; 30;
       31; 33; 34; 39; 40; 42; 43; 48; 49; 51; 52; 31; 32; 34; 35; 40; 41;
       43; 44; 49; 50; 52; 53])) /\
  (len (shape (arange [2; 3; 3; 3])) = 2 \/
   len (shape (arange [2; 3; 3; 3])) = 3 \/
   len (shape (arange [2; 3; 3; 3])) = 4).
Proof.
  assert (E : result (_sliding_window_snapshots (arange [2; 3; 3; 3])
                        (Some (2, 2)) (Some 1))
              = inr (squeeze (mk_ndarray [8; 3; 2; 2]
      [0; 1; 3; 4; 9; 10; 12; 13; 18; 19; 21; 22; 1; 2; 4; 5; 10; 11; 13;
       14; 19; 20; 22; 23; 3; 4; 6; 7; 12; 13; 15; 16; 21; 22; 24; 25; 4; 5;
       7; 8; 13; 14; 16; 17; 22; 23; 25; 26; 27; 28; 30; 31; 36; 37; 39; 40;
       45; 46; 48; 49; 28; 29; 31; 32; 37; 38; 40; 41; 46; 47; 49; 50; 30;
       31; 33; 34; 39; 40; 42; 43; 48; 49; 51; 52; 31; 32; 34; 35; 40; 41;
       43; 44; 49; 50; 52; 53])))
    by (vm_compute; reflexivity).
  split; [exact E |].
  exact (returns_only_on_supported_rank (arange [2; 3; 3; 3]) (Some (2, 2))
           (Some 1) _ E).
Defined.

Lemma rank_below_2_raises_axis_error_witness :
  len (shape (arange [7])) < 2 /\ 0 <= 2 /\ 0 <= 2 /\
  result (_sliding_window_snapshots (arange [7]) (Some (2, 2)) (Some 1))
  = inl (AxisError (-2) (len (shape (arange [7])))).
Proof.
  split; [cbn; lia |]. split; [lia |]. split; [lia |].
  apply (rank_below_2_raises_axis_error (arange [7]) 2 2 1); [cbn; lia | lia ..].
Defined.

(** ** Tiling *)

(** X13: with a square kernel (k, k) and stride k on an image whose height
    a*k and width b*k are multiples of k, the patches tile the image: there
    are N * a * b of them, and the element (n, c, y, x) of the normalized
    array is found in patch (n, y / k, x / k) at offset (y mod k, x mod k),
    so every element lands in exactly that one tile and the image can be read
    back from the patches. *)
Theorem square_tiles_cover_image {A : Type} {dtype : Dtype A}
        (arr arr4 : ndarray A) (N C a b k : Z) :
  result (standardize arr) = inr (arr4, C) ->
  shape arr4 = [N; C; a * k; b * k] ->
  0 <= N -> 0 < C -> 0 < a -> 0 < b -> 0 < k ->
  exists w : Tensor A,
    result (windows_before_squeeze arr (Some (k, k)) (Some k)) = inr w /\
    shape w = [N * a * b; C; k; k] /\
    forall n c y x,
      0 <= n < N -> 0 <= c < C -> 0 <= y < a * k -> 0 <= x < b * k ->
      item w [(n * a + y / k) * b + x / k; c; y mod k; x mod k]
      = item arr4 [n; c; y; x].
Proof.
  intros Hstd Hs HN HC Ha Hb Hk.
  assert (Hak : k <= a * k) by nia.
  assert (Hbk : k <= b * k) by nia.
  destruct (windows_before_squeeze_spec arr arr4 N C (a * k) (b * k) k k k)
    as (w & Hw & _ & Hshape & Hitem); [assumption || lia ..|].
  rewrite !slice_len_window_pos in * by lia.
  assert (Ea : (a * k - k) / k + 1 = a).
  { replace (a * k - k) with ((a - 1) * k) by ring.
    rewrite Z.div_mul by lia. lia. }
  assert (Eb : (b * k - k) / k + 1 = b).
  { replace (b * k - k) with ((b - 1) * k) by ring.
    rewrite Z.div_mul by lia. lia. }
  rewrite Ea, Eb in *.
  exists w. split; [exact Hw |]. split; [exact Hshape |].
  intros n c y x Hn Hc Hy Hx.
  pose proof (Z.mod_pos_bound y k Hk) as My.
  pose proof (Z.mod_pos_bound x k Hk) as Mx.
  assert (Dy : 0 <= y / k < a)
    by (split; [apply Z.div_pos; lia | apply Z.div_lt_upper_bound; lia]).
  assert (Dx : 0 <= x / k < b)
    by (split; [apply Z.div_pos; lia | apply Z.div_lt_upper_bound; lia]).
  rewrite (Hitem n (y / k) (x / k) c (y mod k) (x mod k)) by lia.
  rewrite !slice_at_pos by lia.
  pose proof (Z.div_mod y k) as Ey. pose proof (Z.div_mod x k) as Ex.
  replace (y / k * k + y mod k) with y by lia.
  replace (x / k * k + x mod k) with x by lia.
  reflexivity.
Qed.

Lemma square_tiles_cover_image_witness :
  result (standardize (arange [4; 6]))
  = inr (mk_ndarray [1; 1; 2 * 2; 3 * 2] (zrange 24), 1) /\
  shape (mk_ndarray [1; 1; 2 * 2; 3 * 2] (zrange 24)) = [1; 1; 2 * 2; 3 * 2] /\
  0 <= 1 /\ 0 < 1 /\ 0 < 2 /\ 0 < 3 /\ 0 < 2 /\
  exists w : Tensor Z,
    result (windows_before_squeeze (arange [4; 6]) (Some (2, 2)) (Some 2))
    = inr w /\
    shape w = [1 * 2 * 3; 1; 2; 2] /\
    forall n c y x,
      0 <= n < 1 -> 0 <= c < 1 -> 0 <= y < 2 * 2 -> 0 <= x < 3 * 2 ->
      item w [(n * 2 + y / 2) * 3 + x / 2; c; y mod 2; x mod 2]
      = item (mk_ndarray [1; 1; 2 * 2; 3 * 2] (zrange 24)) [n; c; y; x].
Proof.
  split; [reflexivity |]. split; [reflexivity |].
  repeat (split; [lia |]).
  apply (square_tiles_cover_image (arange [4; 6])
           (mk_ndarray [1; 1; 2 * 2; 3 * 2] (zrange 24)) 1 1 2 3 2);
    [reflexivity | reflexivity | lia ..].
Defined.
